(** * seed_sample_data_for_testing.py: timestamps, seeded orders and the
      order auto-progression rule

    A shallow embedding of the seeding script.  Python [datetime] values are
    instants on one naive calendar line, counted in microseconds (the
    resolution of [datetime]); a [timedelta] is a signed number of
    microseconds.  The [random] module is a tape of raw draws read through a
    cursor, the ORM is a record of operations over an abstract database, and
    Python exceptions are an explicit result type threaded through a
    state-and-exception monad. *)

From Stdlib Require Import ZArith Lia List.
From stdpp Require Import base list strings pretty.
Import ListNotations.

Local Open Scope Z_scope.

(** ** Exceptions and the state-and-exception monad *)

Inductive Exn : Type :=
| IndexError
| ValueError
| KeyError (key : string)
| TypeError
| UnboundLocalError (var : string)
| DatabaseError (msg : string).

Inductive Res (A : Type) : Type :=
| Ok (a : A)
| Raise (e : Exn).
Arguments Ok {A} a.
Arguments Raise {A} e.

(** A computation over a state [S]: the state survives a raised exception,
    as Python's heap does. *)
Definition M (S A : Type) : Type := S -> Res A * S.

Definition ret {S A} (a : A) : M S A := fun s => (Ok a, s).

Definition raise {S A} (e : Exn) : M S A := fun s => (Raise e, s).

Definition bind {S A B} (m : M S A) (k : A -> M S B) : M S B :=
  fun s => match m s with
           | (Ok a, s') => k a s'
           | (Raise e, s') => (Raise e, s')
           end.

(** [try: m except Exception as e: h e] *)
Definition try_except {S A} (m : M S A) (h : Exn -> M S A) : M S A :=
  fun s => match m s with
           | (Ok a, s') => (Ok a, s')
           | (Raise e, s') => h e s'
           end.

Notation "x <- m ;; k" := (bind m (fun x => k))
  (at level 100, m at next level, right associativity).
Notation "m ;;; k" := (bind m (fun _ => k))
  (at level 100, right associativity).

(** [for x in xs: body x] *)
Fixpoint for_each {S A} (xs : list A) (body : A -> M S unit) : M S unit :=
  match xs with
  | [] => ret tt
  | x :: xs' => body x ;;; for_each xs' body
  end.

(** [acc = []; for x in xs: acc.append(body x)] *)
Fixpoint collect {S A B} (xs : list A) (body : A -> M S B) : M S (list B) :=
  match xs with
  | [] => ret []
  | x :: xs' => b <- body x ;; bs <- collect xs' body ;; ret (b :: bs)
  end.

(** [enumerate(xs, start)] *)
Fixpoint enumerate {A} (start : Z) (xs : list A) : list (Z * A) :=
  match xs with
  | [] => []
  | x :: xs' => (start, x) :: enumerate (start + 1) xs'
  end.

(** ** datetime and timedelta *)

Definition datetime : Type := Z.
Definition timedelta : Type := Z.

Definition SECOND : Z := 1000000.
Definition MINUTE : Z := 60 * SECOND.
Definition HOUR : Z := 60 * MINUTE.
Definition DAY : Z := 24 * HOUR.

Definition minutes (n : Z) : timedelta := n * MINUTE.
Definition hours (n : Z) : timedelta := n * HOUR.
Definition days (n : Z) : timedelta := n * DAY.

(** Calendar day of an instant and its time of day. *)
Definition date_of (t : datetime) : Z := t / DAY.
Definition time_of_day (t : datetime) : Z := t mod DAY.

(** [t.replace(hour=h, minute=m, second=0, microsecond=0)]: the date is
    kept, the four time fields are overwritten. *)
Definition replace_hm (t : datetime) (h m : Z) : datetime :=
  date_of t * DAY + hours h + minutes m.

(** ** The random module *)

Record Rng : Type := mkRng { tape : nat -> Z; cursor : nat }.

Definition draw : M Rng Z :=
  fun g => (Ok (tape g (cursor g)), mkRng (tape g) (S (cursor g))).

(** [random.randint(a, b)]: an integer N with a <= N <= b; an empty range
    raises ValueError. *)
Definition randint (a b : Z) : M Rng Z :=
  if b <? a then raise ValueError
  else x <- draw ;; ret (a + x mod (b - a + 1)).

(** The index [random.choice] picks in a sequence of [n] elements;
    IndexError on an empty sequence. *)
Definition choice_index (n : nat) : M Rng nat :=
  match n with
  | O => raise IndexError
  | S _ => x <- draw ;; ret (Z.to_nat (x mod Z.of_nat n))
  end.

(** [seq[i]] *)
Definition subscript {S A} (seq : list A) (i : nat) : M S A :=
  match seq !! i with
  | Some a => ret a
  | None => raise IndexError
  end.

(** [random.choice(seq)] *)
Definition choice {A} (seq : list A) : M Rng A :=
  i <- choice_index (length seq) ;; subscript seq i.

(** ** create_timestamps_for_status *)

Definition Timestamps : Type :=
  (datetime * option datetime * option datetime * option datetime)%type.

Definition create_timestamps_for_status (now : datetime) (status : string)
  : M Rng Timestamps :=
  let started : option datetime := None in
  let completed : option datetime := None in
  let cancelled : option datetime := None in
  if String.eqb status "created" then
    n <- randint 1 8 ;;
    let created := now - minutes n in
    ret (created, started, completed, cancelled)
  else if String.eqb status "in_progress" then
    n <- randint 11 120 ;;
    let created := now - minutes n in
    let started := Some created in
    ret (created, started, completed, cancelled)
  else if String.eqb status "overdue" then
    let yesterday_815am := replace_hm (now - days 1) 8 15 in
    let created := yesterday_815am in
    let started := Some created in
    ret (created, started, completed, cancelled)
  else if String.eqb status "completed" then
    d <- randint 1 30 ;;
    let created := now - days d in
    let started := created + minutes 10 in
    h <- randint 2 8 ;;
    let completed := started + hours h in
    ret (created, Some started, Some completed, cancelled)
  else if String.eqb status "cancelled" then
    d <- randint 1 20 ;;
    let created := now - days d in
    let started := created + minutes 10 in
    m <- randint 30 240 ;;
    let cancelled := started + minutes m in
    ret (created, Some started, completed, Some cancelled)
  else raise (UnboundLocalError "created").

(** ** The Status Engine

    The engine lives in request middleware outside this file; the seeder
    only anticipates it.  What follows is written from the specification of
    the engine, section 4.1 and section 7. *)

Inductive Status : Type :=
| created | in_progress | overdue | completed | cancelled.

Definition status_of_string (s : string) : option Status :=
  if String.eqb s "created" then Some created
  else if String.eqb s "in_progress" then Some in_progress
  else if String.eqb s "overdue" then Some overdue
  else if String.eqb s "completed" then Some completed
  else if String.eqb s "cancelled" then Some cancelled
  else None.

(** Modelled from the spec: the working window of calendar day [d], 08:00
    to 17:00. *)
Definition window_open (d : Z) : datetime := d * DAY + hours 8.
Definition window_close (d : Z) : datetime := d * DAY + hours 17.

(** Length of the part of the interval from [a] to [b] inside the working
    window of day [d]. *)
Definition overlap (a b : datetime) (d : Z) : timedelta :=
  Z.max 0 (Z.min b (window_close d) - Z.max a (window_open d)).

Fixpoint working_sum (a b : datetime) (d : Z) (n : nat) : timedelta :=
  match n with
  | O => 0
  | S n' => overlap a b d + working_sum a b (d + 1) n'
  end.

(** Modelled from the spec: the middleware's working-hours computation is
    not part of this file.  The working-hours duration counts only the time
    falling within the 08:00-17:00 window on each calendar day spanned, from
    the day of [a] to the day of [b]; weekends and holidays are not
    treated. *)
Definition working_duration (a b : datetime) : timedelta :=
  working_sum a b (date_of a) (Z.to_nat (date_of b - date_of a + 1)).

Record OrderSnapshot : Type := mkSnapshot {
  snap_status : Status;
  snap_created_at : datetime;
  snap_started_at : option datetime
}.

Record StatusTransition : Type := mkTransition {
  new_status : Status;
  set_started_at : option datetime
}.

Inductive EngineError : Type := ConsistencyError | InvalidClockError.

Inductive Outcome (A : Type) : Type :=
| Done (a : A)
| Signal (e : EngineError).
Arguments Done {A} a.
Arguments Signal {A} e.

(** Modelled from the spec: the Status Engine's advance operation is not
    part of this file.  Completed and cancelled orders return no transition
    whatever the instant.  For the other statuses an order that breaks
    "started_at is null iff status is created" signals ConsistencyError and
    a clock at or before created_at signals InvalidClockError.  Otherwise a
    created order at least 10 minutes old moves to in_progress with
    started_at = created_at, an in_progress order whose working-hours
    duration since started_at is at least 9 hours moves to overdue, and an
    overdue order does not move. *)
Definition advance (o : OrderSnapshot) (now : datetime)
  : Outcome (option StatusTransition) :=
  match snap_status o with
  | created =>
      match snap_started_at o with
      | Some _ => Signal ConsistencyError
      | None =>
          if now <=? snap_created_at o then Signal InvalidClockError
          else if minutes 10 <=? now - snap_created_at o
               then Done (Some (mkTransition in_progress (Some (snap_created_at o))))
               else Done None
      end
  | in_progress =>
      match snap_started_at o with
      | None => Signal ConsistencyError
      | Some started =>
          if now <=? snap_created_at o then Signal InvalidClockError
          else if hours 9 <=? working_duration started now
               then Done (Some (mkTransition overdue None))
               else Done None
      end
  | overdue =>
      match snap_started_at o with
      | None => Signal ConsistencyError
      | Some _ =>
          if now <=? snap_created_at o then Signal InvalidClockError
          else Done None
      end
  | completed | cancelled => Done None
  end.

(** Modelled from the spec: persisting a transition is the caller's step
    and is not part of this file.  The new status is written, and
    started_at when the transition carries one. *)
Definition apply_transition (o : OrderSnapshot) (t : StatusTransition)
  : OrderSnapshot :=
  mkSnapshot (new_status t) (snap_created_at o)
             (match set_started_at t with
              | Some s => Some s
              | None => snap_started_at o
              end).

(** ** The ORM's models, as far as the script reads and writes them *)

Record Branch : Type := mkBranch {
  branch_code : string; branch_name : string; branch_is_active : bool
}.

Record User : Type := mkUser {
  user_username : string; user_email : string; user_first_name : string;
  user_last_name : string; user_is_staff : bool
}.

Record Customer : Type := mkCustomer {
  cust_phone : string;
  cust_branch : Branch;
  cust_full_name : string;
  cust_email : string;
  cust_customer_type : string;
  cust_registration_date : datetime;
  cust_address : string;
  cust_total_visits : option Z;
  cust_last_visit : option datetime
}.

Record Vehicle : Type := mkVehicle {
  veh_plate_number : string; veh_make : string; veh_model : string;
  veh_vehicle_type : string
}.

Record Brand : Type := mkBrand { brand_name : string; brand_description : string }.

Record InventoryItem : Type := mkItem {
  item_name : string; item_brand : Brand; item_quantity : Z; item_price : Z;
  item_reorder_level : Z
}.

Record Order : Type := mkOrder { order_number : string; order_created_at : datetime }.

(** The keyword arguments of [Order.objects.create]: a key the script does
    not set is [None]. *)
Record OrderData : Type := mkOrderData {
  od_customer : Customer;
  od_vehicle : option Vehicle;
  od_branch : Branch;
  od_type : string;
  od_status : string;
  od_priority : string;
  od_created_at : datetime;
  od_estimated_duration : Z;
  od_assigned_to : option User;
  od_started_at : option datetime;
  od_completed_at : option datetime;
  od_completion_date : option datetime;
  od_cancelled_at : option datetime;
  od_cancellation_reason : option string;
  od_description : option string;
  od_item_name : option string;
  od_brand : option string;
  od_quantity : option Z;
  od_tire_type : option string
}.

(** The operations of the ORM the script calls, over a database [DB].  Each
    may raise. *)
Record ORM (DB : Type) : Type := mkORM {
  Branch_get_or_create :
    string -> string -> bool -> M DB (Branch * bool);
  User_get_or_create :
    string -> string -> string -> string -> bool -> M DB (User * bool);
  Customer_get_or_create :
    string -> Branch -> string -> string -> string -> datetime -> string ->
    M DB (Customer * bool);
  Vehicle_get_or_create :
    string -> Customer -> string -> string -> string -> M DB (Vehicle * bool);
  Brand_get_or_create : string -> string -> M DB (Brand * bool);
  InventoryItem_get_or_create :
    string -> Brand -> Z -> Z -> Z -> M DB (InventoryItem * bool);
  vehicles_exists : Customer -> M DB bool;
  vehicles_all : Customer -> M DB (list Vehicle);
  Order_create : OrderData -> M DB Order;
  Customer_save : Customer -> list string -> M DB unit;
  Order_filter_type_count : string -> M DB Z;
  orders_count : Customer -> M DB Z
}.
Arguments Branch_get_or_create {DB} _.
Arguments User_get_or_create {DB} _.
Arguments Customer_get_or_create {DB} _.
Arguments Vehicle_get_or_create {DB} _.
Arguments Brand_get_or_create {DB} _.
Arguments InventoryItem_get_or_create {DB} _.
Arguments vehicles_exists {DB} _.
Arguments vehicles_all {DB} _.
Arguments Order_create {DB} _.
Arguments Customer_save {DB} _.
Arguments Order_filter_type_count {DB} _.
Arguments orders_count {DB} _.

(** ** What the script prints and which writes it issues *)

Inductive Line : Type :=
| LRule (c : string) (n : Z)
| LText (s : string)
| LCustomer (i : Z) (full_name ctype : string) (was_created : bool)
| LVehicle (plate full_name : string)
| LBrand (name : string)
| LItem (brand item : string)
| LOrder (order_num : Z) (number full_name status order_type : string)
         (age : option timedelta)
| LOrderError (e : Exn)
| LCount (label : string) (n : Z)
| LStatus (status : string) (n : Z) (oldest_age : timedelta)
| LVisits (full_name : string) (visits orders : Z)
| LSeedError (e : Exn)
| LTraceback (e : Exn).

Inductive Event : Type :=
| Printed (l : Line)
| CalledOrderCreate (od : OrderData)
| CalledCustomerSave (c : Customer) (update_fields : list string).

(** The [Order.objects.create] calls of a trace, in order. *)
Fixpoint creates (tr : list Event) : list OrderData :=
  match tr with
  | [] => []
  | CalledOrderCreate od :: tr' => od :: creates tr'
  | _ :: tr' => creates tr'
  end.

(** The [customer.save] calls of a trace, in order. *)
Fixpoint saves (tr : list Event) : list (Customer * list string) :=
  match tr with
  | [] => []
  | CalledCustomerSave c fs :: tr' => (c, fs) :: saves tr'
  | _ :: tr' => saves tr'
  end.

(** ** The script's state

    The random generator, the database, the Python objects that are mutated
    through a shared reference (the customers of the list [customers] and
    the lists of the dict [orders_by_status]), and the trace. *)
Record St (DB : Type) : Type := mkSt {
  st_rng : Rng;
  st_db : DB;
  st_customers : list Customer;
  st_orders_by_status : list (string * list Order);
  st_trace : list Event
}.
Arguments mkSt {DB}.
Arguments st_rng {DB}.
Arguments st_db {DB}.
Arguments st_customers {DB}.
Arguments st_orders_by_status {DB}.
Arguments st_trace {DB}.

Section Seeder.
Context {DB : Type} (orm : ORM DB).

Definition with_rng {A} (m : M Rng A) : M (St DB) A :=
  fun st =>
    let (r, g) := m (st_rng st) in
    (r, mkSt g (st_db st) (st_customers st) (st_orders_by_status st) (st_trace st)).

Definition with_db {A} (m : M DB A) : M (St DB) A :=
  fun st =>
    let (r, d) := m (st_db st) in
    (r, mkSt (st_rng st) d (st_customers st) (st_orders_by_status st) (st_trace st)).

Definition emit (ev : Event) : M (St DB) unit :=
  fun st =>
    (Ok tt, mkSt (st_rng st) (st_db st) (st_customers st) (st_orders_by_status st)
                 (st_trace st ++ [ev])).

Definition print (l : Line) : M (St DB) unit := emit (Printed l).

Definition get_customers : M (St DB) (list Customer) :=
  fun st => (Ok (st_customers st), st).

Definition set_customers (cs : list Customer) : M (St DB) unit :=
  fun st =>
    (Ok tt, mkSt (st_rng st) (st_db st) cs (st_orders_by_status st) (st_trace st)).

Definition get_orders_by_status : M (St DB) (list (string * list Order)) :=
  fun st => (Ok (st_orders_by_status st), st).

Definition set_orders_by_status (d : list (string * list Order)) : M (St DB) unit :=
  fun st =>
    (Ok tt, mkSt (st_rng st) (st_db st) (st_customers st) d (st_trace st)).

Definition get_or_create_branch : M (St DB) Branch :=
  p <- with_db (Branch_get_or_create orm "MAIN" "Main Branch" true) ;;
  ret (fst p).

Definition get_or_create_user : M (St DB) User :=
  p <- with_db (User_get_or_create orm "staff_user" "staff@example.com"
                  "Staff" "User" true) ;;
  ret (fst p).

(** *** [1] customers *)

Definition customers_data : list (string * string * string * string) :=
  [ ("John Smith", "0701234567", "john.smith@email.com", "personal");
    ("Sarah Johnson", "0701234568", "sarah.j@email.com", "personal");
    ("Michael Brown", "0701234569", "mike.brown@email.com", "personal");
    ("Uganda Revenue Authority", "0701234570", "fleet@ura.go.ug", "government");
    ("Red Cross Uganda", "0701234571", "logistics@redcross.ug", "ngo");
    ("MTN Uganda Ltd", "0701234572", "fleet@mtn.co.ug", "company");
    ("David Wilson", "0701234573", "david.w@email.com", "personal");
    ("Ministry of Health", "0701234574", "transport@health.go.ug", "government");
    ("UNICEF Uganda", "0701234575", "ops@unicef.org", "ngo");
    ("Grace Nakato", "0701234576", "grace.n@email.com", "personal") ]%string.

Definition create_customer (now : datetime) (branch : Branch)
    (entry : Z * (string * string * string * string)) : M (St DB) Customer :=
  let '(i, (name, phone, email, ctype)) := entry in
  d <- with_rng (randint 30 365) ;;
  n <- with_rng (randint 100 999) ;;
  p <- with_db (Customer_get_or_create orm phone branch name email ctype
                  (now - days d) ("Plot " +:+ pretty n +:+ ", Kampala")) ;;
  let '(customer, was_created) := p in
  print (LCustomer i (cust_full_name customer) ctype was_created) ;;;
  ret customer.

(** *** [2] vehicles *)

Definition vehicle_makes : list string :=
  ["Toyota"; "Honda"; "Nissan"; "Mercedes"; "Isuzu"]%string.
Definition vehicle_models : list string :=
  ["Camry"; "Hilux"; "Civic"; "X-Trail"; "Actros"]%string.

Definition create_vehicle (customer : Customer) (_ : nat) : M (St DB) Vehicle :=
  n <- with_rng (randint 100 999) ;;
  c <- with_rng (choice ["A"; "B"; "C"; "D"; "E"]%string) ;;
  let plate := "U" +:+ pretty n +:+ c in
  make <- with_rng (choice vehicle_makes) ;;
  model <- with_rng (choice vehicle_models) ;;
  p <- with_db (Vehicle_get_or_create orm plate customer make model "sedan") ;;
  let '(vehicle, was_created) := p in
  (if was_created
   then print (LVehicle (veh_plate_number vehicle) (cust_full_name customer))
   else ret tt) ;;;
  ret vehicle.

Definition create_vehicles (customers : list Customer) : M (St DB) (list Vehicle) :=
  vss <- collect customers (fun customer =>
           num_vehicles <- with_rng (randint 1 2) ;;
           collect (seq 0 (Z.to_nat num_vehicles)) (create_vehicle customer)) ;;
  ret (concat vss).

(** *** [3] brands and inventory items *)

Definition brands_data : list (string * string) :=
  [ ("Michelin", "Premium tires"); ("Bridgestone", "Quality tires");
    ("Goodyear", "Trusted brand") ]%string.

Definition create_brand (entry : string * string) : M (St DB) Brand :=
  let '(name, description) := entry in
  p <- with_db (Brand_get_or_create orm name description) ;;
  let '(brand, was_created) := p in
  (if was_created then print (LBrand (brand_name brand)) else ret tt) ;;;
  ret brand.

Definition tire_types : list string :=
  ["All Season"; "Summer"; "Winter"; "Performance"]%string.
Definition sizes : list string :=
  ["195/65R15"; "205/55R16"; "225/45R17"]%string.

Definition create_item (brand : Brand) (entry : Z * string)
  : M (St DB) InventoryItem :=
  let '(i, tire_type) := entry in
  size <- subscript sizes (Z.to_nat i) ;;
  let name := tire_type +:+ " " +:+ size in
  quantity <- with_rng (randint 20 100) ;;
  price <- with_rng (randint 150 300) ;;
  p <- with_db (InventoryItem_get_or_create orm name brand quantity price 5) ;;
  let '(item, was_created) := p in
  (if was_created then print (LItem (brand_name brand) name) else ret tt) ;;;
  ret item.

Definition create_inventory (brands : list Brand) : M (St DB) (list InventoryItem) :=
  iss <- collect brands (fun brand =>
           collect (enumerate 0 (take 2 tire_types)) (create_item brand)) ;;
  ret (concat iss).

(** *** [4] orders *)

Definition order_statuses : list string :=
  [ "created"; "created"; "created"; "created";
    "in_progress"; "in_progress"; "in_progress"; "in_progress";
    "overdue"; "overdue"; "overdue"; "overdue";
    "completed"; "completed"; "completed"; "completed";
    "cancelled"; "cancelled"; "cancelled"; "cancelled" ]%string.

Definition service_descriptions : list string :=
  [ "Oil change and filter replacement";
    "Brake pad replacement and inspection";
    "Tire rotation and balancing";
    "Engine tune-up and diagnostics";
    "Transmission fluid service" ]%string.

Definition cancellation_reasons : list string :=
  [ "Customer request"; "Parts unavailable"; "Weather conditions";
    "Customer no-show" ]%string.

(** The loop body up to the [try]: the selected customer (as an index
    into [customers]) and the keyword arguments for the new order. *)
Definition build_order_data (now : datetime) (branch : Branch)
    (staff_user : User) (inventory_items : list InventoryItem)
    (status : string) : M (St DB) (nat * OrderData) :=
  customers <- get_customers ;;
  ci <- with_rng (choice_index (length customers)) ;;
  customer <- subscript customers ci ;;
  has_vehicles <- with_db (vehicles_exists orm customer) ;;
  vehicle <- (if has_vehicles
              then vs <- with_db (vehicles_all orm customer) ;;
                   v <- with_rng (choice vs) ;; ret (Some v)
              else ret None) ;;
  order_type <- with_rng (choice ["service"; "sales"; "service"]%string) ;;
  priority <- with_rng (choice ["low"; "medium"; "high"; "urgent"]%string) ;;
  ts <- with_rng (create_timestamps_for_status now status) ;;
  let '(created_at, started_at, completed_at, cancelled_at) := ts in
  estimated_duration <- with_rng (randint 60 480) ;;
  assign <- with_rng (choice [true; false]) ;;
  let assigned_to := if assign : bool then Some staff_user else None in
  cancellation_reason <-
    (match cancelled_at with
     | Some _ => r <- with_rng (choice cancellation_reasons) ;; ret (Some r)
     | None => ret None
     end) ;;
  if String.eqb order_type "service" then
    description <- with_rng (choice service_descriptions) ;;
    ret (ci, mkOrderData customer vehicle branch order_type status priority
               created_at estimated_duration assigned_to
               started_at completed_at completed_at
               cancelled_at cancellation_reason
               (Some description) None None None None)
  else if String.eqb order_type "sales" then
    item <- with_rng (choice inventory_items) ;;
    quantity <- with_rng (randint 1 4) ;;
    ret (ci, mkOrderData customer vehicle branch order_type status priority
               created_at estimated_duration assigned_to
               started_at completed_at completed_at
               cancelled_at cancellation_reason
               None (Some (item_name item)) (Some (brand_name (item_brand item)))
               (Some quantity) (Some "New"%string))
  else
    ret (ci, mkOrderData customer vehicle branch order_type status priority
               created_at estimated_duration assigned_to
               started_at completed_at completed_at
               cancelled_at cancellation_reason
               None None None None None).

(** [orders_by_status[status].append(order)] *)
Fixpoint dict_append (key : string) (order : Order)
    (d : list (string * list Order)) : option (list (string * list Order)) :=
  match d with
  | [] => None
  | (k, orders) :: d' =>
      if String.eqb k key then Some ((k, orders ++ [order]) :: d')
      else option_map (cons (k, orders)) (dict_append key order d')
  end.

Definition append_order (status : string) (order : Order) : M (St DB) unit :=
  d <- get_orders_by_status ;;
  match dict_append status order d with
  | Some d' => set_orders_by_status d'
  | None => raise (KeyError status)
  end.

(** [customer.total_visits = (customer.total_visits or 0) + 1] *)
Definition bump_total_visits (c : Customer) : Customer :=
  let old := match cust_total_visits c with
             | Some v => if v =? 0 then 0 else v
             | None => 0
             end in
  mkCustomer (cust_phone c) (cust_branch c) (cust_full_name c) (cust_email c)
    (cust_customer_type c) (cust_registration_date c) (cust_address c)
    (Some (old + 1)) (cust_last_visit c).

(** [customer.last_visit = created_at] *)
Definition set_last_visit (created_at : datetime) (c : Customer) : Customer :=
  mkCustomer (cust_phone c) (cust_branch c) (cust_full_name c) (cust_email c)
    (cust_customer_type c) (cust_registration_date c) (cust_address c)
    (cust_total_visits c) (Some created_at).

(** An attribute assignment through the reference [ci]. *)
Definition assign_customer (ci : nat) (f : Customer -> Customer) : M (St DB) unit :=
  customers <- get_customers ;;
  set_customers (alter f ci customers).

Definition age_info (now : datetime) (status : string) (created_at : datetime)
  : option timedelta :=
  if String.eqb status "created" then Some (now - created_at)
  else if String.eqb status "in_progress" then Some (now - created_at)
  else if String.eqb status "overdue" then Some (now - created_at)
  else None.

(** The body of the [try] of one iteration. *)
Definition create_and_record (now : datetime) (order_num : Z) (ci : nat)
    (od : OrderData) : M (St DB) unit :=
  emit (CalledOrderCreate od) ;;;
  order <- with_db (Order_create orm od) ;;
  append_order (od_status od) order ;;;
  assign_customer ci bump_total_visits ;;;
  assign_customer ci (set_last_visit (od_created_at od)) ;;;
  customers <- get_customers ;;
  customer <- subscript customers ci ;;
  emit (CalledCustomerSave customer ["total_visits"; "last_visit"]%string) ;;;
  with_db (Customer_save orm customer ["total_visits"; "last_visit"]%string) ;;;
  print (LOrder order_num (order_number order) (cust_full_name customer)
           (od_status od) (od_type od)
           (age_info now (od_status od) (od_created_at od))).

Definition seed_order (now : datetime) (branch : Branch) (staff_user : User)
    (inventory_items : list InventoryItem) (order_num : Z) (status : string)
  : M (St DB) unit :=
  p <- build_order_data now branch staff_user inventory_items status ;;
  let '(ci, od) := p in
  try_except (create_and_record now order_num ci od)
             (fun e => print (LOrderError e)).

(** [order_num = 0; for status in order_statuses: order_num += 1; ...] *)
Fixpoint seed_orders (now : datetime) (branch : Branch) (staff_user : User)
    (inventory_items : list InventoryItem) (order_num : Z)
    (statuses : list string) : M (St DB) unit :=
  match statuses with
  | [] => ret tt
  | status :: rest =>
      let order_num := order_num + 1 in
      seed_order now branch staff_user inventory_items order_num status ;;;
      seed_orders now branch staff_user inventory_items order_num rest
  end.

(** *** Summary *)

Definition rule (c : string) : Line := LRule c 70.

(** [min(o.created_at for o in orders)], for a non-empty list *)
Definition oldest (o : Order) (orders : list Order) : datetime :=
  foldr (fun o' acc => Z.min (order_created_at o') acc) (order_created_at o) orders.

Definition print_status_group (now : datetime) (entry : string * list Order)
  : M (St DB) unit :=
  let '(status, orders) := entry in
  match orders with
  | [] => ret tt
  | o :: orders' =>
      print (LStatus status (Z.of_nat (length orders)) (now - oldest o orders'))
  end.

(** [f"... Visits: {visit_count:2d} ..."]: formatting [None] with [2d]
    raises TypeError. *)
Definition print_visits (customer : Customer) : M (St DB) unit :=
  let visit_count := cust_total_visits customer in
  order_count <- with_db (orders_count orm customer) ;;
  match visit_count with
  | Some v => print (LVisits (cust_full_name customer) v order_count)
  | None => raise TypeError
  end.

Definition print_summary (now : datetime) (vehicles : list Vehicle)
  : M (St DB) unit :=
  print (rule "=") ;;;
  print (LText "SUMMARY - AUTO-PROGRESSION LIFECYCLE") ;;;
  print (rule "=") ;;;
  print (LText "Data Created:") ;;;
  customers <- get_customers ;;
  print (LCount "Customers" (Z.of_nat (length customers))) ;;;
  print (LCount "Vehicles" (Z.of_nat (length vehicles))) ;;;
  by_status <- get_orders_by_status ;;
  print (LCount "Total Orders"
           (foldr Z.add 0 (map (fun e => Z.of_nat (length (snd e))) by_status))) ;;;
  print (rule "-") ;;;
  print (LText "Auto-Progression Flow (Middleware Driven):") ;;;
  print (rule "-") ;;;
  print (LText "1. CREATED 2. IN PROGRESS 3. OVERDUE 4. COMPLETED 5. CANCELLED") ;;;
  print (rule "-") ;;;
  print (LText "Order Distribution by Status:") ;;;
  print (rule "-") ;;;
  for_each by_status (print_status_group now) ;;;
  print (rule "-") ;;;
  print (LText "Order Distribution by Type:") ;;;
  print (rule "-") ;;;
  service_count <- with_db (Order_filter_type_count orm "service") ;;
  sales_count <- with_db (Order_filter_type_count orm "sales") ;;
  inquiry_count <- with_db (Order_filter_type_count orm "inquiry") ;;
  print (LCount "Service" service_count) ;;;
  print (LCount "Sales" sales_count) ;;;
  print (LCount "Inquiry" inquiry_count) ;;;
  print (rule "-") ;;;
  print (LText "Customer Visit Tracking:") ;;;
  print (rule "-") ;;;
  for_each customers print_visits ;;;
  print (rule "=") ;;;
  print (LText "Sample data seeding completed successfully!") ;;;
  print (LText "Note: The middleware will automatically:") ;;;
  print (LText "Auto-progress 'created' orders to 'in_progress' after 10 minutes") ;;;
  print (LText "Mark 'in_progress' orders as 'overdue' when 9 working hours exceeded") ;;;
  print (rule "=").

(** *** create_sample_data and the script's entry point

    [now] is the value [timezone.now()] returns during the run. *)
Definition empty_orders_by_status : list (string * list Order) :=
  [ ("created", []); ("in_progress", []); ("overdue", []);
    ("completed", []); ("cancelled", []) ]%string.

Definition create_sample_data (now : datetime) : M (St DB) unit :=
  print (rule "=") ;;;
  print (LText "SEEDING SAMPLE DATA: 10 Customers and 20 Orders with All Statuses") ;;;
  print (rule "=") ;;;
  branch <- get_or_create_branch ;;
  staff_user <- get_or_create_user ;;
  print (LText "[1] Creating 10 Customers...") ;;;
  customers <- collect (enumerate 1 customers_data) (create_customer now branch) ;;
  set_customers customers ;;;
  print (LText "[2] Creating Vehicles for Customers...") ;;;
  vehicles <- create_vehicles customers ;;
  print (LText "[3] Creating Brands and Inventory Items...") ;;;
  brands <- collect brands_data create_brand ;;
  inventory_items <- create_inventory brands ;;
  print (LText "[4] Creating 20 Orders - Auto-Progress Demonstration...") ;;;
  print (rule "-") ;;;
  set_orders_by_status empty_orders_by_status ;;;
  seed_orders now branch staff_user inventory_items 0 order_statuses ;;;
  print_summary now vehicles.

Definition initial_state (g : Rng) (d : DB) : St DB := mkSt g d [] [] [].

(** [if __name__ == '__main__']: the exit status and the final state. *)
Definition main (now : datetime) (g : Rng) (d : DB) : Z * St DB :=
  match create_sample_data now (initial_state g d) with
  | (Ok _, st) => (0, st)
  | (Raise e, st) =>
      (1, snd ((print (LSeedError e) ;;; print (LTraceback e)) st))
  end.
End Seeder.

(** ** A small database to run the script on

    Rows are kept in lists; [get_or_create] always creates, and
    [Order.objects.create] raises once the table holds [toy_limit] orders. *)
Record ToyDB : Type := mkToyDB {
  toy_orders : list OrderData;
  toy_saved : list (Customer * list string);
  toy_limit : nat
}.

Definition toy_orm : ORM ToyDB := {|
  Branch_get_or_create code name active := ret (mkBranch code name active, true);
  User_get_or_create u e f l s := ret (mkUser u e f l s, true);
  Customer_get_or_create phone branch name email ctype reg addr :=
    ret (mkCustomer phone branch name email ctype reg addr (Some 0) None, true);
  Vehicle_get_or_create plate _ make model vtype :=
    ret (mkVehicle plate make model vtype, true);
  Brand_get_or_create name description := ret (mkBrand name description, true);
  InventoryItem_get_or_create name brand q p r := ret (mkItem name brand q p r, true);
  vehicles_exists _ := ret false;
  vehicles_all _ := ret [];
  Order_create od := fun d =>
    if (length (toy_orders d) <? toy_limit d)%nat
    then (Ok (mkOrder ("ORD" +:+ pretty (Z.of_nat (length (toy_orders d))))
                      (od_created_at od)),
          mkToyDB (toy_orders d ++ [od]) (toy_saved d) (toy_limit d))
    else (Raise (DatabaseError "order table is full"), d);
  Customer_save c fields := fun d =>
    (Ok tt, mkToyDB (toy_orders d) (toy_saved d ++ [(c, fields)]) (toy_limit d));
  Order_filter_type_count ty := fun d =>
    (Ok (Z.of_nat (length (filter (fun od => String.eqb (od_type od) ty) (toy_orders d)))), d);
  orders_count c := fun d =>
    (Ok (Z.of_nat (length (filter (fun od => String.eqb (cust_phone (od_customer od))
                                                        (cust_phone c))
                                  (toy_orders d)))), d)
|}.

Definition counting_tape : Rng := mkRng (fun n => Z.of_nat n) 0.

(** ** Notions used to state the properties *)

Definition next (g : Rng) : Rng := mkRng (tape g) (S (cursor g)).

(** The instant the overdue branch computes: yesterday at 08:15. *)
Definition yesterday_815am (now : datetime) : datetime :=
  replace_hm (now - days 1) 8 15.

(** The engine's view of a seeded order. *)
Definition snapshot_of (od : OrderData) : option OrderSnapshot :=
  match status_of_string (od_status od) with
  | Some s => Some (mkSnapshot s (od_created_at od) (od_started_at od))
  | None => None
  end.

(** A computation is quiet when it issues no [Order.objects.create]. *)
Definition quiet {DB A} (m : M (St DB) A) : Prop :=
  forall st r st', m st = (r, st') ->
    creates (st_trace st') = creates (st_trace st).

(** The customer after one visit is recorded: seven fields are kept. *)
Definition visited (created_at : datetime) (c : Customer) : Customer :=
  mkCustomer (cust_phone c) (cust_branch c) (cust_full_name c) (cust_email c)
    (cust_customer_type c) (cust_registration_date c) (cust_address c)
    (Some (default 0 (cust_total_visits c) + 1)) (Some created_at).

Definition is_order_error (ev : Event) : bool :=
  match ev with Printed (LOrderError _) => true | _ => false end.

Definition is_top_level_report (ev : Event) : bool :=
  match ev with
  | Printed (LSeedError _) | Printed (LTraceback _) => true
  | _ => false
  end.

(** ** Sample inputs *)

Definition sample_branch : Branch := mkBranch "MAIN" "Main Branch" true.
Definition sample_user : User :=
  mkUser "staff_user" "staff@example.com" "Staff" "User" true.
Definition sample_customer (phone name : string) (visits : option Z)
    (last : option datetime) : Customer :=
  mkCustomer phone sample_branch name "" "personal" 0 "Plot 100, Kampala" visits last.
Definition sample_items : list InventoryItem :=
  [mkItem "All Season 195/65R15" (mkBrand "Michelin" "Premium tires") 20 150 5].

(** Day 10 at 12:00. *)
Definition sample_now : datetime := 10 * DAY + hours 12.

Definition sample_state : St ToyDB :=
  mkSt counting_tape (mkToyDB [] [] 20)
       [ sample_customer "0701234567" "John Smith" None None;
         sample_customer "0701234568" "Sarah Johnson" (Some 3) (Some sample_now) ]
       empty_orders_by_status [].

Definition sample_order_data : OrderData :=
  mkOrderData (sample_customer "0701234568" "Sarah Johnson" (Some 3) (Some sample_now))
    None sample_branch "service" "in_progress" "high"
    (sample_now - minutes 30) 90 None (Some (sample_now - minutes 30))
    None None None None (Some "Tire rotation and balancing"%string)
    None None None None.

(** A run in which the order table holds at most 18 orders: the last two
    calls raise, the script still ends with status 0. *)
Definition full_table_run : Z * St ToyDB :=
  main toy_orm sample_now counting_tape (mkToyDB [] [] 18).

(** ** Further notions used to state the properties *)

Definition same_heap {DB} (st st' : St DB) : Prop :=
  st_customers st' = st_customers st
  /\ st_orders_by_status st' = st_orders_by_status st
  /\ st_trace st' = st_trace st.

Definition heap_pure {DB A} (m : M (St DB) A) : Prop :=
  forall st r st', m st = (r, st') -> same_heap st st'.

(** [d.get(key)] *)
Fixpoint dict_get (key : string) (d : list (string * list Order))
  : option (list Order) :=
  match d with
  | [] => None
  | (k, orders) :: d' => if String.eqb k key then Some orders else dict_get key d'
  end.

(** [sum(len(orders) for orders in d.values())] *)
Definition total_orders (d : list (string * list Order)) : Z :=
  foldr Z.add 0 (map (fun e => Z.of_nat (length (snd e))) d).

(** The visits counted over all customer objects, null counting as 0. *)
Definition visits_total (cs : list Customer) : Z :=
  foldr (fun c acc => default 0 (cust_total_visits c) + acc) 0 cs.

(** How far the three counts moved between two states. *)
Definition filed {DB} (st st' : St DB) : Z :=
  total_orders (st_orders_by_status st') - total_orders (st_orders_by_status st).

Definition bookkeeping_agrees {DB} (st st' : St DB) : Prop :=
  visits_total (st_customers st') - visits_total (st_customers st) = filed st st'
  /\ Z.of_nat (length (saves (st_trace st')))
     = Z.of_nat (length (saves (st_trace st))) + filed st st'
  /\ map fst (st_orders_by_status st') = map fst (st_orders_by_status st)
  /\ length (st_customers st') = length (st_customers st).

Definition keeps {DB X A} (f : St DB -> X) (m : M (St DB) A) : Prop :=
  forall st r st', m st = (r, st') -> f st' = f st.

(** The error lines the loop's handler has printed. *)
Fixpoint order_errors (tr : list Event) : nat :=
  match tr with
  | [] => 0
  | Printed (LOrderError _) :: tr' => S (order_errors tr')
  | _ :: tr' => order_errors tr'
  end.

(** [len(orders_by_status.get(key, []))] *)
Definition filed_under (key : string) (d : list (string * list Order)) : nat :=
  length (default [] (dict_get key d)).

(** The statuses attempted so far are the first ones of [statuses]. *)
Definition attempts_prefix {DB} (statuses : list string) (st st' : St DB) : Prop :=
  exists done rest,
    creates (st_trace st') = creates (st_trace st) ++ done
    /\ statuses = map od_status done ++ rest.

Definition prefixing {DB A} (statuses : list string) (m : M (St DB) A) : Prop :=
  forall st r st', m st = (r, st') -> attempts_prefix statuses st st'.

Definition errors_of {DB} (st : St DB) : nat := order_errors (st_trace st).

Definition errors_and_orders {DB} (st : St DB) : nat * list (string * list Order) :=
  (order_errors (st_trace st), st_orders_by_status st).

(** An ORM over the toy database whose vehicle lookup breaks down once five
    orders are stored. *)
Definition outage_orm : ORM ToyDB := {|
  Branch_get_or_create := Branch_get_or_create toy_orm;
  User_get_or_create := User_get_or_create toy_orm;
  Customer_get_or_create := Customer_get_or_create toy_orm;
  Vehicle_get_or_create := Vehicle_get_or_create toy_orm;
  Brand_get_or_create := Brand_get_or_create toy_orm;
  InventoryItem_get_or_create := InventoryItem_get_or_create toy_orm;
  vehicles_exists _ := fun d =>
    if (length (toy_orders d) <? 5)%nat then (Ok false, d)
    else (Raise (DatabaseError "connection lost"), d);
  vehicles_all := vehicles_all toy_orm;
  Order_create := Order_create toy_orm;
  Customer_save := Customer_save toy_orm;
  Order_filter_type_count := Order_filter_type_count toy_orm;
  orders_count := orders_count toy_orm
|}.

Definition outage_run : Z * St ToyDB :=
  main outage_orm sample_now counting_tape (mkToyDB [] [] 20).

(** A run in which the order table holds at most 16 orders. *)
Definition short_table_run : Z * St ToyDB :=
  main toy_orm sample_now counting_tape (mkToyDB [] [] 16).

(** The ORM behaves outside the loop's [try]: no call made there raises,
    [get_or_create] returns customers whose total_visits is not null, and a
    customer reported to have vehicles has at least one. *)
Record well_behaved_outside_try {DB} (orm : ORM DB) : Prop := {
  wb_branch : forall code name active d,
    exists p d', Branch_get_or_create orm code name active d = (Ok p, d');
  wb_user : forall u e f l s d,
    exists p d', User_get_or_create orm u e f l s d = (Ok p, d');
  wb_customer : forall phone branch name email ctype reg addr d,
    exists c created d',
      Customer_get_or_create orm phone branch name email ctype reg addr d
      = (Ok (c, created), d')
      /\ is_Some (cust_total_visits c);
  wb_vehicle : forall plate c make model vtype d,
    exists p d', Vehicle_get_or_create orm plate c make model vtype d = (Ok p, d');
  wb_brand : forall name description d,
    exists p d', Brand_get_or_create orm name description d = (Ok p, d');
  wb_item : forall name brand q p r d,
    exists x d', InventoryItem_get_or_create orm name brand q p r d = (Ok x, d');
  wb_vehicles : forall c d,
    exists b d', vehicles_exists orm c d = (Ok b, d')
      /\ (b = true ->
          exists vs d'', vehicles_all orm c d' = (Ok vs, d'') /\ vs <> []);
  wb_type_count : forall ty d,
    exists n d', Order_filter_type_count orm ty d = (Ok n, d');
  wb_orders_count : forall c d,
    exists n d', orders_count orm c d = (Ok n, d')
}.

(** [m] returns normally from every state whose customers satisfy [J]; its
    result satisfies [Q] and it leaves the customer objects alone. *)
Definition safe {DB A} (J : list Customer -> Prop) (m : M (St DB) A)
    (Q : A -> Prop) : Prop :=
  forall st, J (st_customers st) ->
    exists a st', m st = (Ok a, st') /\ Q a /\ st_customers st' = st_customers st.

Definition has_visit_counts (cs : list Customer) : Prop :=
  cs <> [] /\ Forall (fun c => is_Some (cust_total_visits c)) cs.

(** [m] returns normally from every state whose customers satisfy [J], and
    leaves customers that satisfy [J']. *)
Definition returns {DB A} (J : list Customer -> Prop) (m : M (St DB) A)
    (Q : A -> Prop) (J' : list Customer -> Prop) : Prop :=
  forall st, J (st_customers st) ->
    exists a st', m st = (Ok a, st') /\ Q a /\ J' (st_customers st').

(** A run in which every order creation is refused. *)
Definition refused_run : Z * St ToyDB :=
  main toy_orm sample_now counting_tape (mkToyDB [] [] 0).

(** What the summary must not disturb. *)
Definition objects_and_saves {DB} (st : St DB)
  : list Customer * list (string * list Order) * list (Customer * list string) :=
  (st_customers st, st_orders_by_status st, saves (st_trace st)).

(** [m] returns normally only from states whose customers satisfy [J]. *)
Definition returns_only_if {DB A} (J : list Customer -> Prop) (m : M (St DB) A) : Prop :=
  forall st a st', m st = (Ok a, st') -> J (st_customers st).

(** [m] returns normally only if [P] holds. *)
Definition requires {DB A} (P : Prop) (m : M (St DB) A) : Prop :=
  forall st a st', m st = (Ok a, st') -> P.

(** An ORM over the toy database that refuses every [customer.save]. *)
Definition readonly_orm : ORM ToyDB := {|
  Branch_get_or_create := Branch_get_or_create toy_orm;
  User_get_or_create := User_get_or_create toy_orm;
  Customer_get_or_create := Customer_get_or_create toy_orm;
  Vehicle_get_or_create := Vehicle_get_or_create toy_orm;
  Brand_get_or_create := Brand_get_or_create toy_orm;
  InventoryItem_get_or_create := InventoryItem_get_or_create toy_orm;
  vehicles_exists := vehicles_exists toy_orm;
  vehicles_all := vehicles_all toy_orm;
  Order_create := Order_create toy_orm;
  Customer_save _ _ := fun d => (Raise (DatabaseError "customers are read-only"), d);
  Order_filter_type_count := Order_filter_type_count toy_orm;
  orders_count := orders_count toy_orm
|}.

(** The sample state over a database that refuses every order. *)
Definition refusing_state : St ToyDB :=
  mkSt counting_tape (mkToyDB [] [] 0) (st_customers sample_state)
       empty_orders_by_status [].

(** A state in which every customer has a visit count. *)
Definition counted_state : St ToyDB :=
  mkSt counting_tape (mkToyDB [] [] 20)
       [ sample_customer "0701234568" "Sarah Johnson" (Some 3) (Some sample_now) ]
       empty_orders_by_status [].

(** * Properties *)

(** ** Arithmetic of instants *)

Ltac unfold_time :=
  unfold replace_hm, window_open, window_close, date_of, time_of_day,
    minutes, hours, days, DAY, HOUR, MINUTE, SECOND in *.

Ltac time_arith := unfold_time; Z.div_mod_to_equations; lia.

Lemma date_of_yesterday (now : datetime) : date_of (now - days 1) = date_of now - 1.
Proof. time_arith. Qed.

Lemma date_of_replace_hm (t : datetime) :
  date_of (replace_hm t 8 15) = date_of t.
Proof. time_arith. Qed.

Lemma yesterday_815am_eq (now : datetime) :
  yesterday_815am now = (date_of now - 1) * DAY + hours 8 + minutes 15.
Proof. unfold yesterday_815am. time_arith. Qed.

(** From yesterday 08:15 to [now], the working time is yesterday's remaining
    8h45 plus the part of today's window already elapsed. *)
Lemma working_duration_since_yesterday_815am (now : datetime) :
  working_duration (yesterday_815am now) now
  = hours 8 + minutes 45
    + Z.max 0 (Z.min (time_of_day now) (hours 17) - hours 8).
Proof.
  unfold working_duration, yesterday_815am.
  rewrite date_of_replace_hm, date_of_yesterday.
  replace (date_of now - (date_of now - 1) + 1) with 2 by lia.
  change (Z.to_nat 2) with 2%nat. cbn [working_sum].
  unfold overlap. time_arith.
Qed.

(** The order is overdue at seed time exactly when the script runs at or
    after 08:15. *)
Lemma overdue_at_seed_time_iff (now : datetime) :
  hours 9 <= working_duration (yesterday_815am now) now
  <-> hours 8 + minutes 15 <= time_of_day now.
Proof.
  rewrite working_duration_since_yesterday_815am. time_arith.
Qed.

(** ** The random module *)

Lemma randint_range (a b : Z) (g : Rng) :
  a <= b ->
  exists n, a <= n <= b /\ randint a b g = (Ok n, next g).
Proof.
  intros Hab. unfold randint.
  destruct (b <? a) eqn:E; [lia |].
  exists (a + tape g (cursor g) mod (b - a + 1)). split; [| reflexivity].
  pose proof (Z.mod_pos_bound (tape g (cursor g)) (b - a + 1)). lia.
Qed.

(** ** Inversion of monadic steps *)

Lemma bind_inv {S A B} (m : M S A) (k : A -> M S B) s r s' :
  bind m k s = (r, s') ->
  (exists a s1, m s = (Ok a, s1) /\ k a s1 = (r, s'))
  \/ (exists e, m s = (Raise e, s') /\ r = Raise e).
Proof.
  unfold bind. destruct (m s) as [[a | e] s1]; intros H.
  - left. eauto.
  - right. inversion H; subst. eauto.
Qed.

Lemma bind_Ok_inv {S A B} (m : M S A) (k : A -> M S B) s b s' :
  bind m k s = (Ok b, s') ->
  exists a s1, m s = (Ok a, s1) /\ k a s1 = (Ok b, s').
Proof.
  intros H. apply bind_inv in H as [H | (e & _ & H)]; [exact H | discriminate].
Qed.

Lemma ret_Ok_inv {S A} (a b : A) (s s' : S) :
  ret a s = (Ok b, s') -> a = b /\ s = s'.
Proof. unfold ret. intros H. inversion H. auto. Qed.

(** ** create_timestamps_for_status, branch by branch *)

Lemma timestamps_created now g :
  exists n, 1 <= n <= 8 /\
    create_timestamps_for_status now "created" g
    = (Ok (now - minutes n, None, None, None), next g).
Proof.
  destruct (randint_range 1 8 g) as (n & Hn & E); [lia |].
  exists n. split; [exact Hn |].
  change (create_timestamps_for_status now "created")
    with (n <- randint 1 8 ;; ret (now - minutes n, @None datetime,
                                   @None datetime, @None datetime)).
  unfold bind. rewrite E. reflexivity.
Qed.

Lemma timestamps_in_progress now g :
  exists n, 11 <= n <= 120 /\
    create_timestamps_for_status now "in_progress" g
    = (Ok (now - minutes n, Some (now - minutes n), None, None), next g).
Proof.
  destruct (randint_range 11 120 g) as (n & Hn & E); [lia |].
  exists n. split; [exact Hn |].
  change (create_timestamps_for_status now "in_progress")
    with (n <- randint 11 120 ;; ret (now - minutes n, Some (now - minutes n),
                                      @None datetime, @None datetime)).
  unfold bind. rewrite E. reflexivity.
Qed.

Lemma timestamps_overdue now g :
  create_timestamps_for_status now "overdue" g
  = (Ok (yesterday_815am now, Some (yesterday_815am now), None, None), g).
Proof. reflexivity. Qed.

Lemma timestamps_completed now g :
  exists d h, 1 <= d <= 30 /\ 2 <= h <= 8 /\
    create_timestamps_for_status now "completed" g
    = (Ok (now - days d, Some (now - days d + minutes 10),
           Some (now - days d + minutes 10 + hours h), None), next (next g)).
Proof.
  destruct (randint_range 1 30 g) as (d & Hd & E1); [lia |].
  destruct (randint_range 2 8 (next g)) as (h & Hh & E2); [lia |].
  exists d, h. split; [exact Hd |]. split; [exact Hh |].
  change (create_timestamps_for_status now "completed")
    with (d <- randint 1 30 ;; h <- randint 2 8 ;;
          ret (now - days d, Some (now - days d + minutes 10),
               Some (now - days d + minutes 10 + hours h), @None datetime)).
  unfold bind. rewrite E1, E2. reflexivity.
Qed.

Lemma timestamps_cancelled now g :
  exists d m, 1 <= d <= 20 /\ 30 <= m <= 240 /\
    create_timestamps_for_status now "cancelled" g
    = (Ok (now - days d, Some (now - days d + minutes 10), None,
           Some (now - days d + minutes 10 + minutes m)), next (next g)).
Proof.
  destruct (randint_range 1 20 g) as (d & Hd & E1); [lia |].
  destruct (randint_range 30 240 (next g)) as (m & Hm & E2); [lia |].
  exists d, m. split; [exact Hd |]. split; [exact Hm |].
  change (create_timestamps_for_status now "cancelled")
    with (d <- randint 1 20 ;; m <- randint 30 240 ;;
          ret (now - days d, Some (now - days d + minutes 10), @None datetime,
               Some (now - days d + minutes 10 + minutes m))).
  unfold bind. rewrite E1, E2. reflexivity.
Qed.

(** The five statuses are the only ones the helper returns for. *)
Lemma timestamps_status now status g ts g' :
  create_timestamps_for_status now status g = (Ok ts, g') ->
  status = "created"%string \/ status = "in_progress"%string
  \/ status = "overdue"%string \/ status = "completed"%string
  \/ status = "cancelled"%string.
Proof.
  unfold create_timestamps_for_status.
  destruct (String.eqb_spec status "created"); [auto |].
  destruct (String.eqb_spec status "in_progress"); [auto |].
  destruct (String.eqb_spec status "overdue"); [auto |].
  destruct (String.eqb_spec status "completed"); [auto 6 |].
  destruct (String.eqb_spec status "cancelled"); [auto 6 |].
  discriminate.
Qed.

(** ** The loop body up to the [try] *)

Section BuildOrderData.
Context {DB : Type} (orm : ORM DB).

Lemma with_rng_inv {A} (m : M Rng A) (st : St DB) r st' :
  with_rng m st = (r, st') ->
  exists g', m (st_rng st) = (r, g')
    /\ st' = mkSt g' (st_db st) (st_customers st) (st_orders_by_status st)
                  (st_trace st).
Proof.
  unfold with_rng. destruct (m (st_rng st)) as [r0 g0]. intros H.
  inversion H; subst. eauto.
Qed.

Lemma with_db_inv {A} (m : M DB A) (st : St DB) r st' :
  with_db m st = (r, st') ->
  exists d', m (st_db st) = (r, d')
    /\ st' = mkSt (st_rng st) d' (st_customers st) (st_orders_by_status st)
                  (st_trace st).
Proof.
  unfold with_db. destruct (m (st_db st)) as [r0 d0]. intros H.
  inversion H; subst. eauto.
Qed.

Ltac step H :=
  let a := fresh "a" in let s := fresh "s" in let E := fresh "E" in
  apply bind_Ok_inv in H as (a & s & E & H).

(** The order's four timestamps are those the helper returned for the
    loop's status, and [completion_date] repeats [completed_at]. *)
Lemma build_order_data_fields now branch staff_user items status st ci od st' :
  build_order_data orm now branch staff_user items status st = (Ok (ci, od), st') ->
  od_status od = status
  /\ od_completion_date od = od_completed_at od
  /\ exists g g',
       create_timestamps_for_status now status g
       = (Ok (od_created_at od, od_started_at od, od_completed_at od,
              od_cancelled_at od), g').
Proof.
  intros H. unfold build_order_data in H.
  do 7 step H. step H.
  apply with_rng_inv in E6 as (g' & Ets & _).
  destruct a6 as [[[created_at started_at] completed_at] cancelled_at].
  do 3 step H.
  destruct (String.eqb a4 "service").
  - step H. apply ret_Ok_inv in H as [H _]. inversion H; subst. cbn. eauto.
  - destruct (String.eqb a4 "sales").
    + do 2 step H. apply ret_Ok_inv in H as [H _]. inversion H; subst. cbn. eauto.
    + apply ret_Ok_inv in H as [H _]. inversion H; subst. cbn. eauto.
Qed.
End BuildOrderData.

(** What the helper returns, by status. *)
Lemma timestamps_shape now status g c s co ca g' :
  create_timestamps_for_status now status g = (Ok (c, s, co, ca), g') ->
  (status = "created"%string /\ s = None /\ co = None /\ ca = None
   /\ minutes 1 <= now - c <= minutes 8)
  \/ (status = "in_progress"%string /\ s = Some c /\ co = None /\ ca = None
      /\ minutes 11 <= now - c <= minutes 120)
  \/ (status = "overdue"%string /\ s = Some c /\ co = None /\ ca = None
      /\ c = yesterday_815am now)
  \/ (status = "completed"%string /\ s = Some (c + minutes 10) /\ ca = None
      /\ (exists h, 2 <= h <= 8 /\ co = Some (c + minutes 10 + hours h))
      /\ days 1 <= now - c <= days 30)
  \/ (status = "cancelled"%string /\ s = Some (c + minutes 10) /\ co = None
      /\ (exists m, 30 <= m <= 240 /\ ca = Some (c + minutes 10 + minutes m))
      /\ days 1 <= now - c <= days 20).
Proof.
  intros H.
  destruct (timestamps_status _ _ _ _ _ H) as [-> | [-> | [-> | [-> | ->]]]].
  - left. destruct (timestamps_created now g) as (n & Hn & E).
    rewrite E in H. inversion H; subst. repeat split; unfold minutes, MINUTE, SECOND; lia.
  - right; left. destruct (timestamps_in_progress now g) as (n & Hn & E).
    rewrite E in H. inversion H; subst. repeat split; unfold minutes, MINUTE, SECOND; lia.
  - right; right; left. rewrite timestamps_overdue in H. inversion H; subst. auto.
  - right; right; right; left.
    destruct (timestamps_completed now g) as (d & h & Hd & Hh & E).
    rewrite E in H. inversion H; subst.
    repeat split; eauto; unfold days, DAY, HOUR, MINUTE, SECOND; lia.
  - right; right; right; right.
    destruct (timestamps_cancelled now g) as (d & m & Hd & Hm & E).
    rewrite E in H. inversion H; subst.
    repeat split; eauto; unfold days, DAY, HOUR, MINUTE, SECOND; lia.
Qed.

(** ** The seeded timestamps *)

(** C1: at a run before 08:15 the overdue orders fall short of the 9
    working hours the script's comments promise.  At 07:00 on day 10 the
    helper returns 08:15 of day 9 for created and started; the working-hours
    duration up to the run is 8h45, and the engine leaves such an
    in_progress order alone. *)
Theorem overdue_seed_before_815_short (g : Rng) :
  let now := 10 * DAY + hours 7 in
  let started := 9 * DAY + hours 8 + minutes 15 in
  create_timestamps_for_status now "overdue" g
    = (Ok (started, Some started, None, None), g)
  /\ working_duration started now = hours 8 + minutes 45
  /\ working_duration started now < hours 9
  /\ advance (mkSnapshot in_progress started (Some started)) now = Done None.
Proof. repeat split; reflexivity. Qed.

(** C2: for completed and cancelled orders the helper sets started ten
    minutes after created, whatever the run's instant and the random draws;
    only in_progress and overdue orders get started equal to created. *)
Theorem started_at_of_closed_orders_is_late (now : datetime) (g : Rng) :
  (exists c s co ca g',
      create_timestamps_for_status now "completed" g = (Ok (c, Some s, co, ca), g')
      /\ s = c + minutes 10 /\ s <> c)
  /\ (exists c s co ca g',
      create_timestamps_for_status now "cancelled" g = (Ok (c, Some s, co, ca), g')
      /\ s = c + minutes 10 /\ s <> c)
  /\ (exists c g',
      create_timestamps_for_status now "in_progress" g = (Ok (c, Some c, None, None), g'))
  /\ (exists c g',
      create_timestamps_for_status now "overdue" g = (Ok (c, Some c, None, None), g')).
Proof.
  split; [| split; [| split]].
  - destruct (timestamps_completed now g) as (d & h & _ & _ & E).
    do 5 eexists. split; [exact E |]. split; [reflexivity |].
    unfold minutes, MINUTE, SECOND. lia.
  - destruct (timestamps_cancelled now g) as (d & m & _ & _ & E).
    do 5 eexists. split; [exact E |]. split; [reflexivity |].
    unfold minutes, MINUTE, SECOND. lia.
  - destruct (timestamps_in_progress now g) as (n & _ & E). eauto.
  - rewrite timestamps_overdue. eauto.
Qed.

Section SeededOrders.
Context {DB : Type} (orm : ORM DB).
Variables (now : datetime) (branch : Branch) (staff_user : User)
          (items : list InventoryItem).

(** C3: in the keyword arguments of every order the loop builds,
    started_at is unset exactly when the status is 'created'. *)
Theorem started_at_null_iff_created status st ci od st' :
  build_order_data orm now branch staff_user items status st = (Ok (ci, od), st') ->
  od_started_at od = None <-> od_status od = "created"%string.
Proof.
  intros H. apply build_order_data_fields in H as (-> & _ & g & g' & H).
  apply timestamps_shape in H
    as [(-> & -> & _) | [(-> & -> & _) | [(-> & -> & _) | [(-> & -> & _) | (-> & -> & _)]]]];
    split; intros; congruence.
Qed.

(** C4: an order the loop builds with status 'created' is between 1 and 8
    minutes old at the run's instant and has no started_at, so the engine
    returns no transition for it at that instant. *)
Theorem created_orders_do_not_advance status st ci od st' :
  build_order_data orm now branch staff_user items status st = (Ok (ci, od), st') ->
  od_status od = "created"%string ->
  minutes 1 <= now - od_created_at od <= minutes 8
  /\ now - od_created_at od < minutes 10
  /\ exists snap, snapshot_of od = Some snap
       /\ snap_status snap = created
       /\ advance snap now = Done None.
Proof.
  intros H Hs. apply build_order_data_fields in H as (Est & _ & g & g' & H).
  rewrite Hs in Est. subst status.
  apply timestamps_shape in H
    as [(_ & Hst & _ & _ & Hage) | [(? & _) | [(? & _) | [(? & _) | (? & _)]]]];
    try discriminate.
  split; [exact Hage |]. split; [unfold minutes, MINUTE, SECOND in *; lia |].
  unfold snapshot_of. rewrite Hs. cbn [status_of_string String.eqb Ascii.eqb Bool.eqb].
  eexists. split; [reflexivity |]. split; [reflexivity |].
  unfold advance. cbn [snap_status snap_started_at snap_created_at]. rewrite Hst.
  destruct (Z.leb_spec now (od_created_at od));
    [unfold minutes, MINUTE, SECOND in *; lia |].
  destruct (Z.leb_spec (minutes 10) (now - od_created_at od));
    [unfold minutes, MINUTE, SECOND in *; lia |].
  reflexivity.
Qed.

(** C5: no order the loop builds carries both completed_at and
    cancelled_at. *)
Theorem completed_cancelled_exclusive status st ci od st' :
  build_order_data orm now branch staff_user items status st = (Ok (ci, od), st') ->
  od_completed_at od = None \/ od_cancelled_at od = None.
Proof.
  intros H. apply build_order_data_fields in H as (_ & _ & g & g' & H).
  apply timestamps_shape in H
    as [(_ & _ & -> & _) | [(_ & _ & -> & _) | [(_ & _ & -> & _)
        | [(_ & _ & -> & _) | (_ & _ & -> & _)]]]]; auto.
Qed.

(** C6: in every order the loop builds, each timestamp that is set is at
    or after created_at: started_at is created_at or ten minutes later,
    completed_at is 2 to 8 hours after started_at, and cancelled_at is 30
    to 240 minutes after started_at. *)
Theorem timestamps_not_before_created status st ci od st' :
  build_order_data orm now branch staff_user items status st = (Ok (ci, od), st') ->
  let c := od_created_at od in
  match od_started_at od with
  | None => od_completed_at od = None /\ od_cancelled_at od = None
  | Some s =>
      c <= s /\ (s = c \/ s = c + minutes 10)
      /\ match od_completed_at od with
         | None => True
         | Some co => c <= co /\ s + hours 2 <= co <= s + hours 8
         end
      /\ match od_cancelled_at od with
         | None => True
         | Some ca => c <= ca /\ s + minutes 30 <= ca <= s + minutes 240
         end
  end.
Proof.
  intros H. apply build_order_data_fields in H as (_ & _ & g & g' & H).
  apply timestamps_shape in H
    as [(_ & -> & -> & -> & _) | [(_ & -> & -> & -> & _) | [(_ & -> & -> & -> & _)
        | [(_ & -> & -> & (h & Hh & ->) & _) | (_ & -> & -> & (m & Hm & ->) & _)]]]];
    cbn; repeat split; auto;
    unfold minutes, hours, HOUR, MINUTE, SECOND; try lia.
Qed.
End SeededOrders.

Lemma started_at_null_iff_created_witness :
  exists ci od st',
    build_order_data toy_orm sample_now sample_branch sample_user sample_items
      "overdue" sample_state = (Ok (ci, od), st')
    /\ (od_started_at od = None <-> od_status od = "created"%string).
Proof.
  eexists _, _, _. split; [vm_compute; reflexivity |].
  eapply (started_at_null_iff_created toy_orm sample_now sample_branch sample_user
           sample_items "overdue" sample_state).
  vm_compute. reflexivity.
Defined.

Lemma created_orders_do_not_advance_witness :
  exists ci od st',
    build_order_data toy_orm sample_now sample_branch sample_user sample_items
      "created" sample_state = (Ok (ci, od), st')
    /\ minutes 1 <= sample_now - od_created_at od <= minutes 8
    /\ sample_now - od_created_at od < minutes 10
    /\ exists snap, snapshot_of od = Some snap
         /\ snap_status snap = created
         /\ advance snap sample_now = Done None.
Proof.
  eexists _, _, _. split; [vm_compute; reflexivity |].
  eapply (created_orders_do_not_advance toy_orm sample_now sample_branch sample_user
           sample_items "created" sample_state).
  - vm_compute. reflexivity.
  - reflexivity.
Defined.

Lemma completed_cancelled_exclusive_witness :
  exists ci od st',
    build_order_data toy_orm sample_now sample_branch sample_user sample_items
      "cancelled" sample_state = (Ok (ci, od), st')
    /\ (od_completed_at od = None \/ od_cancelled_at od = None).
Proof.
  eexists _, _, _. split; [vm_compute; reflexivity |].
  eapply (completed_cancelled_exclusive toy_orm sample_now sample_branch sample_user
           sample_items "cancelled" sample_state).
  vm_compute. reflexivity.
Defined.

Lemma timestamps_not_before_created_witness :
  exists ci od st',
    build_order_data toy_orm sample_now sample_branch sample_user sample_items
      "completed" sample_state = (Ok (ci, od), st')
    /\ match od_started_at od with
       | None => od_completed_at od = None /\ od_cancelled_at od = None
       | Some s =>
           od_created_at od <= s
           /\ (s = od_created_at od \/ s = od_created_at od + minutes 10)
           /\ match od_completed_at od with
              | None => True
              | Some co => od_created_at od <= co /\ s + hours 2 <= co <= s + hours 8
              end
           /\ match od_cancelled_at od with
              | None => True
              | Some ca =>
                  od_created_at od <= ca /\ s + minutes 30 <= ca <= s + minutes 240
              end
       end.
Proof.
  eexists _, _, _. split; [vm_compute; reflexivity |].
  eapply (timestamps_not_before_created toy_orm sample_now sample_branch
            sample_user sample_items "completed" sample_state).
  vm_compute. reflexivity.
Defined.

(** ** The Status Engine *)

(** C9: when advance returns a transition and the caller applies it, a
    second call at the same instant signals no error and does not return
    that transition again, nor any transition into the status the order now
    has. *)
Theorem advance_no_double_advance (o : OrderSnapshot) (now : datetime)
    (t : StatusTransition) :
  advance o now = Done (Some t) ->
  exists r, advance (apply_transition o t) now = Done r
    /\ r <> Some t
    /\ match r with
       | Some t' => new_status t' <> new_status t
       | None => True
       end.
Proof.
  destruct o as [st c s]. unfold advance.
  cbn [snap_status snap_started_at snap_created_at].
  destruct st; try discriminate.
  - destruct s; [discriminate |].
    destruct (Z.leb_spec now c) as [Hle | Hlt]; [discriminate |].
    destruct (minutes 10 <=? now - c); [| discriminate].
    intros Ht. inversion Ht; subst. cbn.
    destruct (Z.leb_spec now c) as [Hle | _]; [lia |].
    destruct (hours 9 <=? working_duration c now); eexists;
      (split; [reflexivity |]); split; try discriminate; exact I.
  - destruct s as [s |]; [| discriminate].
    destruct (Z.leb_spec now c) as [Hle | Hlt]; [discriminate |].
    destruct (hours 9 <=? working_duration s now); [| discriminate].
    intros Ht. inversion Ht; subst. cbn.
    destruct (Z.leb_spec now c) as [Hle | _]; [lia |].
    exists None. repeat split; discriminate.
  - destruct s; [| discriminate]. destruct (now <=? c); discriminate.
Qed.

(** A created order first seen the next evening: the first call moves it to
    in_progress, the second call moves it on to overdue. *)
Lemma advance_no_double_advance_witness :
  let o := mkSnapshot created (9 * DAY + hours 8 + minutes 15) None in
  let now := 10 * DAY + hours 17 + minutes 15 in
  let t := mkTransition in_progress (Some (9 * DAY + hours 8 + minutes 15)) in
  exists r, advance (apply_transition o t) now = Done r
    /\ r <> Some t
    /\ match r with
       | Some t' => new_status t' <> new_status t
       | None => True
       end.
Proof.
  intros o now t. apply (advance_no_double_advance o now t). reflexivity.
Defined.

(** ** Traces *)

Lemma creates_app (tr tr' : list Event) :
  creates (tr ++ tr') = creates tr ++ creates tr'.
Proof.
  induction tr as [| ev tr IH]; [reflexivity |].
  destruct ev; cbn; rewrite IH; reflexivity.
Qed.

Lemma saves_app (tr tr' : list Event) :
  saves (tr ++ tr') = saves tr ++ saves tr'.
Proof.
  induction tr as [| ev tr IH]; [reflexivity |].
  destruct ev; cbn; rewrite IH; reflexivity.
Qed.

Section Quiet.
Context {DB : Type} (orm : ORM DB).

Lemma quiet_ret {A} (a : A) : quiet (ret a : M (St DB) A).
Proof. intros st r st' H. inversion H; subst. reflexivity. Qed.

Lemma quiet_raise {A} (e : Exn) : quiet (raise e : M (St DB) A).
Proof. intros st r st' H. inversion H; subst. reflexivity. Qed.

Lemma quiet_bind {A B} (m : M (St DB) A) (k : A -> M (St DB) B) :
  quiet m -> (forall a, quiet (k a)) -> quiet (bind m k).
Proof.
  intros Hm Hk st r st' H.
  apply bind_inv in H as [(a & s1 & E1 & E2) | (e & E1 & _)].
  - rewrite (Hk _ _ _ _ E2). eauto.
  - eauto.
Qed.

Lemma quiet_try_except {A} (m : M (St DB) A) (h : Exn -> M (St DB) A) :
  quiet m -> (forall e, quiet (h e)) -> quiet (try_except m h).
Proof.
  intros Hm Hh st r st'. unfold try_except.
  destruct (m st) as [[a | e] s1] eqn:E; intros H.
  - inversion H; subst. eauto.
  - rewrite (Hh _ _ _ _ H). eauto.
Qed.

Lemma quiet_with_rng {A} (m : M Rng A) : quiet (with_rng (DB := DB) m).
Proof.
  intros st r st' H. apply with_rng_inv in H as (g' & _ & ->). reflexivity.
Qed.

Lemma quiet_with_db {A} (m : M DB A) : quiet (with_db m).
Proof.
  intros st r st' H. apply with_db_inv in H as (g' & _ & ->). reflexivity.
Qed.

Lemma quiet_print (l : Line) : quiet (print (DB := DB) l).
Proof.
  intros st r st' H. inversion H; subst. cbn.
  rewrite creates_app. cbn. apply app_nil_r.
Qed.

Lemma quiet_emit_save c fields :
  quiet (emit (DB := DB) (CalledCustomerSave c fields)).
Proof.
  intros st r st' H. inversion H; subst. cbn.
  rewrite creates_app. cbn. apply app_nil_r.
Qed.

Lemma quiet_get_customers : quiet (get_customers (DB := DB)).
Proof. intros st r st' H. inversion H; subst. reflexivity. Qed.

Lemma quiet_set_customers cs : quiet (set_customers (DB := DB) cs).
Proof. intros st r st' H. inversion H; subst. reflexivity. Qed.

Lemma quiet_get_orders_by_status : quiet (get_orders_by_status (DB := DB)).
Proof. intros st r st' H. inversion H; subst. reflexivity. Qed.

Lemma quiet_set_orders_by_status d : quiet (set_orders_by_status (DB := DB) d).
Proof. intros st r st' H. inversion H; subst. reflexivity. Qed.

Lemma quiet_subscript {A} (l : list A) i : quiet (subscript (S := St DB) l i).
Proof. unfold subscript. destruct (l !! i); [apply quiet_ret | apply quiet_raise]. Qed.

Lemma quiet_for_each {A} (xs : list A) (body : A -> M (St DB) unit) :
  (forall x, quiet (body x)) -> quiet (for_each xs body).
Proof.
  intros Hb. induction xs as [| x xs IH]; cbn.
  - apply quiet_ret.
  - apply quiet_bind; auto.
Qed.

Lemma quiet_collect {A B} (xs : list A) (body : A -> M (St DB) B) :
  (forall x, quiet (body x)) -> quiet (collect xs body).
Proof.
  intros Hb. induction xs as [| x xs IH]; cbn.
  - apply quiet_ret.
  - apply quiet_bind; [auto |]. intros b.
    apply quiet_bind; [auto |]. intros bs. apply quiet_ret.
Qed.

End Quiet.

Ltac quiet_step :=
  lazymatch goal with
  | |- quiet (bind _ _) => apply quiet_bind
  | |- quiet (ret _) => apply quiet_ret
  | |- quiet (raise _) => apply quiet_raise
  | |- quiet (with_rng _) => apply quiet_with_rng
  | |- quiet (with_db _) => apply quiet_with_db
  | |- quiet (print _) => apply quiet_print
  | |- quiet (emit (CalledCustomerSave _ _)) => apply quiet_emit_save
  | |- quiet get_customers => apply quiet_get_customers
  | |- quiet (set_customers _) => apply quiet_set_customers
  | |- quiet get_orders_by_status => apply quiet_get_orders_by_status
  | |- quiet (set_orders_by_status _) => apply quiet_set_orders_by_status
  | |- quiet (subscript _ _) => apply quiet_subscript
  | |- quiet (for_each _ _) => apply quiet_for_each
  | |- quiet (collect _ _) => apply quiet_collect
  | |- quiet (match ?x with _ => _ end) => destruct x
  | |- forall _, _ => intro
  end.

Ltac quiet_auto := repeat quiet_step.

Section QuietPhases.
Context {DB : Type} (orm : ORM DB).

Lemma quiet_get_or_create_branch : quiet (get_or_create_branch orm).
Proof. unfold get_or_create_branch. quiet_auto. Qed.

Lemma quiet_get_or_create_user : quiet (get_or_create_user orm).
Proof. unfold get_or_create_user. quiet_auto. Qed.

Lemma quiet_create_customer now branch entry :
  quiet (create_customer orm now branch entry).
Proof. unfold create_customer. quiet_auto. Qed.

Lemma quiet_create_vehicles customers : quiet (create_vehicles orm customers).
Proof. unfold create_vehicles, create_vehicle. quiet_auto. Qed.

Lemma quiet_create_brand entry : quiet (create_brand orm entry).
Proof. unfold create_brand. quiet_auto. Qed.

Lemma quiet_create_inventory brands : quiet (create_inventory orm brands).
Proof. unfold create_inventory, create_item. quiet_auto. Qed.

Lemma quiet_build_order_data now branch staff_user items status :
  quiet (build_order_data orm now branch staff_user items status).
Proof. unfold build_order_data. quiet_auto. Qed.

Lemma quiet_print_summary now vehicles : quiet (print_summary orm now vehicles).
Proof. unfold print_summary, print_status_group, print_visits. quiet_auto. Qed.
End QuietPhases.

(** ** The order loop *)

Section OrderLoop.
Context {DB : Type} (orm : ORM DB).
Variables (now : datetime) (branch : Branch) (staff_user : User)
          (items : list InventoryItem).

(** The [try] body issues exactly one [Order.objects.create], for [od]. *)
Lemma create_and_record_creates order_num ci od st r st' :
  create_and_record orm now order_num ci od st = (r, st') ->
  creates (st_trace st') = creates (st_trace st) ++ [od].
Proof.
  unfold create_and_record. intros H.
  apply bind_inv in H as [(a & s1 & E1 & E2) | (e & E1 & _)];
    [| discriminate].
  inversion E1; subst; clear E1.
  assert (Q : quiet
    (order <- with_db (Order_create orm od) ;;
     append_order (od_status od) order ;;;
     assign_customer ci bump_total_visits ;;;
     assign_customer ci (set_last_visit (od_created_at od)) ;;;
     customers <- get_customers ;;
     customer <- subscript customers ci ;;
     emit (CalledCustomerSave customer ["total_visits"; "last_visit"]%string) ;;;
     with_db (Customer_save orm customer ["total_visits"; "last_visit"]%string) ;;;
     print (LOrder order_num (order_number order) (cust_full_name customer)
              (od_status od) (od_type od)
              (age_info now (od_status od) (od_created_at od))))).
  { unfold append_order, assign_customer. quiet_auto. }
  rewrite (Q _ _ _ E2). cbn. rewrite creates_app. reflexivity.
Qed.

(** One iteration: it either fails before the [try], having attempted
    nothing, or ends normally after one attempt with the loop's status. *)
Lemma seed_order_creates order_num status st r st' :
  seed_order orm now branch staff_user items order_num status st = (r, st') ->
  (exists e, r = Raise e /\ creates (st_trace st') = creates (st_trace st))
  \/ (r = Ok tt /\ exists od, od_status od = status
        /\ creates (st_trace st') = creates (st_trace st) ++ [od]).
Proof.
  unfold seed_order. intros H.
  apply bind_inv in H as [([ci od] & s1 & E1 & E2) | (e & E1 & ->)].
  - right.
    pose proof (quiet_build_order_data orm _ _ _ _ _ _ _ _ E1) as Q1.
    apply build_order_data_fields in E1 as (Hst & _).
    unfold try_except in E2.
    destruct (create_and_record orm now order_num ci od s1) as [[[] | e] s2] eqn:E.
    + inversion E2; subst. split; [reflexivity |]. exists od. split; [reflexivity |].
      rewrite (create_and_record_creates _ _ _ _ _ _ E), Q1. reflexivity.
    + pose proof (quiet_print _ _ _ _ E2) as Q2. inversion E2; subst.
      split; [reflexivity |]. exists od. split; [reflexivity |].
      rewrite Q2, (create_and_record_creates _ _ _ _ _ _ E), Q1. reflexivity.
  - left. exists e. split; [reflexivity |].
    exact (quiet_build_order_data orm _ _ _ _ _ _ _ _ E1).
Qed.

(** A loop that runs to its end attempts one order per status, in order. *)
Lemma seed_orders_creates statuses order_num st st' :
  seed_orders orm now branch staff_user items order_num statuses st = (Ok tt, st') ->
  map od_status (creates (st_trace st'))
  = map od_status (creates (st_trace st)) ++ statuses.
Proof.
  revert order_num st. induction statuses as [| status rest IH]; intros order_num st H.
  - inversion H; subst. symmetry. apply app_nil_r.
  - cbn [seed_orders] in H.
    apply bind_Ok_inv in H as ([] & s1 & E1 & E2).
    apply seed_order_creates in E1 as [(e & He & _) | (_ & od & Hod & E1)];
      [discriminate |].
    rewrite (IH _ _ E2), E1, map_app, <- app_assoc. cbn. rewrite Hod. reflexivity.
Qed.
End OrderLoop.

(** ** A whole run *)

Section Run.
Context {DB : Type} (orm : ORM DB).

(** A run of [create_sample_data] that returns has attempted one order per
    entry of [order_statuses], in order, and nothing else. *)
Lemma create_sample_data_creates now st st' :
  create_sample_data orm now st = (Ok tt, st') ->
  map od_status (creates (st_trace st'))
  = map od_status (creates (st_trace st)) ++ order_statuses.
Proof.
  unfold create_sample_data. intros H.
  apply bind_Ok_inv in H as (? & s1 & E1 & H). apply quiet_print in E1.
  apply bind_Ok_inv in H as (? & s2 & E2 & H). apply quiet_print in E2.
  apply bind_Ok_inv in H as (? & s3 & E3 & H). apply quiet_print in E3.
  apply bind_Ok_inv in H as (br & s4 & E4 & H).
  apply quiet_get_or_create_branch in E4.
  apply bind_Ok_inv in H as (us & s5 & E5 & H).
  apply quiet_get_or_create_user in E5.
  apply bind_Ok_inv in H as (? & s6 & E6 & H). apply quiet_print in E6.
  apply bind_Ok_inv in H as (cs & s7 & E7 & H).
  apply quiet_collect in E7; [| intros; apply quiet_create_customer].
  apply bind_Ok_inv in H as (? & s8 & E8 & H). apply quiet_set_customers in E8.
  apply bind_Ok_inv in H as (? & s9 & E9 & H). apply quiet_print in E9.
  apply bind_Ok_inv in H as (vs & s10 & E10 & H).
  apply quiet_create_vehicles in E10.
  apply bind_Ok_inv in H as (? & s11 & E11 & H). apply quiet_print in E11.
  apply bind_Ok_inv in H as (bs & s12 & E12 & H).
  apply quiet_collect in E12; [| intros; apply quiet_create_brand].
  apply bind_Ok_inv in H as (its & s13 & E13 & H).
  apply quiet_create_inventory in E13.
  apply bind_Ok_inv in H as (? & s14 & E14 & H). apply quiet_print in E14.
  apply bind_Ok_inv in H as (? & s15 & E15 & H). apply quiet_print in E15.
  apply bind_Ok_inv in H as (? & s16 & E16 & H).
  apply quiet_set_orders_by_status in E16.
  apply bind_Ok_inv in H as ([] & s17 & E17 & H).
  apply seed_orders_creates in E17.
  apply quiet_print_summary in H.
  rewrite H, E17. do 2 f_equal. congruence.
Qed.

End Run.

(** ** Failure handling *)


(** ** Customer visit tracking *)

Lemma alter_as_insert {A} (f : A -> A) (l : list A) (i : nat) (x : A) :
  l !! i = Some x -> alter f i l = <[i := f x]> l.
Proof.
  revert i. induction l as [| y l IH]; intros [| i] H; try discriminate.
  - inversion H; subst. reflexivity.
  - cbn. f_equal. apply IH. exact H.
Qed.

Lemma dict_append_key (key : string) (order : Order) (d : list (string * list Order)) :
  In key (map fst d) -> exists d', dict_append key order d = Some d'.
Proof.
  induction d as [| [k orders] d IH]; intros Hin; [destruct Hin |].
  cbn. destruct (String.eqb_spec k key) as [-> | Hne]; [eauto |].
  destruct Hin as [Hk | Hin]; [cbn in Hk; congruence |].
  destruct (IH Hin) as (d' & ->). cbn. eauto.
Qed.

Lemma set_last_visit_bump created_at c :
  set_last_visit created_at (bump_total_visits c) = visited created_at c.
Proof.
  unfold set_last_visit, bump_total_visits, visited. cbn.
  destruct (cust_total_visits c) as [v |]; cbn; [| reflexivity].
  destruct (Z.eqb_spec v 0); subst; reflexivity.
Qed.

Section VisitTracking.
Context {DB : Type} (orm : ORM DB).

(** C10: when [Order.objects.create] succeeds, the iteration replaces the
    selected customer by one whose total_visits is the old value (null
    counting as 0) plus 1 and whose last_visit is the order's created_at,
    whatever last_visit was before; its other fields and all other
    customers are kept, and the one [save] issued names exactly the
    fields total_visits and last_visit. *)
Theorem visit_tracking_touches_two_fields
    now order_num ci od st order d' c r st' :
  Order_create orm od (st_db st) = (Ok order, d') ->
  st_customers st !! ci = Some c ->
  In (od_status od) (map fst (st_orders_by_status st)) ->
  create_and_record orm now order_num ci od st = (r, st') ->
  st_customers st' = <[ci := visited (od_created_at od) c]> (st_customers st)
  /\ cust_total_visits (visited (od_created_at od) c)
     = Some (default 0 (cust_total_visits c) + 1)
  /\ cust_last_visit (visited (od_created_at od) c) = Some (od_created_at od)
  /\ saves (st_trace st')
     = saves (st_trace st)
       ++ [(visited (od_created_at od) c, ["total_visits"; "last_visit"]%string)].
Proof.
  intros Hcreate Hc Hkey H.
  destruct (dict_append_key _ order _ Hkey) as (obs' & Hobs).
  assert (Hl : alter (set_last_visit (od_created_at od)) ci
                 (alter bump_total_visits ci (st_customers st))
               = <[ci := visited (od_created_at od) c]> (st_customers st)).
  { rewrite list_alter_alter_eq. rewrite (alter_as_insert _ _ _ _ Hc). cbn.
    rewrite set_last_visit_bump. reflexivity. }
  assert (Hlk : <[ci := visited (od_created_at od) c]> (st_customers st) !! ci
                = Some (visited (od_created_at od) c)).
  { apply list_lookup_insert_eq. eapply lookup_lt_Some. exact Hc. }
  unfold create_and_record, bind, emit, with_db, append_order,
    get_orders_by_status, set_orders_by_status, assign_customer,
    get_customers, set_customers, subscript, print, emit in H.
  cbn in H. rewrite Hcreate in H. cbn in H. rewrite Hobs in H. cbn in H.
  rewrite Hl, Hlk in H. cbn in H.
  destruct (Customer_save orm (visited (od_created_at od) c)
              ["total_visits"; "last_visit"]%string d') as [[[] | e] d''];
    inversion H; subst; cbn;
    repeat split; try reflexivity;
    repeat rewrite saves_app; cbn; rewrite ?app_nil_r; reflexivity.
Qed.
End VisitTracking.

(** Sarah Johnson's last_visit was the run's instant; the order created 30
    minutes earlier moves it back. *)
Lemma visit_tracking_touches_two_fields_witness :
  exists st',
    snd (create_and_record toy_orm sample_now 5 1 sample_order_data sample_state) = st'
    /\ st_customers st' !! 1%nat
       = Some (sample_customer "0701234568" "Sarah Johnson" (Some 4)
                 (Some (sample_now - minutes 30)))
    /\ st_customers st' !! 0%nat = st_customers sample_state !! 0%nat
    /\ saves (st_trace st')
       = [(sample_customer "0701234568" "Sarah Johnson" (Some 4)
             (Some (sample_now - minutes 30)),
           ["total_visits"; "last_visit"]%string)].
Proof.
  eexists. split; [reflexivity |].
  destruct (visit_tracking_touches_two_fields toy_orm sample_now 5 1
              sample_order_data sample_state
              (mkOrder "ORD0" (sample_now - minutes 30))
              (mkToyDB [sample_order_data] [] 20)
              (sample_customer "0701234568" "Sarah Johnson" (Some 3) (Some sample_now))
              (fst (create_and_record toy_orm sample_now 5 1 sample_order_data sample_state))
              (snd (create_and_record toy_orm sample_now 5 1 sample_order_data sample_state)))
    as (Hc & _ & _ & Hs).
  - reflexivity.
  - reflexivity.
  - simpl. right. left. reflexivity.
  - vm_compute. reflexivity.
  - rewrite Hc, Hs. repeat split; reflexivity.
Defined.

(** ** More on the random module *)

Lemma randint_inv (a b : Z) (g : Rng) n g' :
  randint a b g = (Ok n, g') -> a <= n <= b /\ g' = next g.
Proof.
  unfold randint. destruct (Z.ltb_spec b a) as [Hlt | Hle]; [discriminate |].
  intros H. inversion H; subst.
  pose proof (Z.mod_pos_bound (tape g (cursor g)) (b - a + 1)). split; [lia | reflexivity].
Qed.

Lemma choice_index_inv (n : nat) (g : Rng) i g' :
  choice_index n g = (Ok i, g') -> (i < n)%nat /\ g' = next g.
Proof.
  destruct n as [| n]; [discriminate |]. intros H. inversion H; subst.
  split; [| reflexivity].
  pose proof (Z.mod_pos_bound (tape g (cursor g)) (Z.of_nat (S n))). lia.
Qed.

Lemma subscript_inv {S A} (l : list A) (i : nat) (s : S) r s' :
  subscript l i s = (r, s') ->
  s' = s /\ ((exists a, l !! i = Some a /\ r = Ok a)
             \/ (l !! i = None /\ r = Raise IndexError)).
Proof.
  unfold subscript. destruct (l !! i) as [a |]; intros H; inversion H; subst; eauto.
Qed.

Lemma choice_inv {A} (l : list A) (g : Rng) a g' :
  choice l g = (Ok a, g') -> In a l /\ g' = next g.
Proof.
  unfold choice. intros H.
  apply bind_Ok_inv in H as (i & g1 & Ei & H).
  apply choice_index_inv in Ei as [_ ->].
  apply subscript_inv in H as [-> [(a' & Hl & Ha) | [_ Ha]]]; [| discriminate].
  inversion Ha; subst. split; [| reflexivity].
  apply list_elem_of_In. eapply list_elem_of_lookup_2. exact Hl.
Qed.

(** [random.choice] raises exactly on an empty sequence. *)
Lemma choice_nonempty {A} (l : list A) (g : Rng) :
  l <> [] -> exists a, In a l /\ choice l g = (Ok a, next g).
Proof.
  intros Hne. destruct l as [| x l]; [congruence |].
  unfold choice, bind. cbn [length choice_index].
  unfold bind, draw, ret.
  pose proof (Z.mod_pos_bound (tape g (cursor g)) (Z.of_nat (S (length l)))) as Hb.
  destruct (lookup_lt_is_Some_2 (x :: l)
              (Z.to_nat (tape g (cursor g) mod Z.of_nat (S (length l))))) as [a Ha].
  { cbn [length]. lia. }
  exists a. split.
  - apply list_elem_of_In. eapply list_elem_of_lookup_2. exact Ha.
  - unfold subscript. rewrite Ha. reflexivity.
Qed.

(** ** Computations that leave the Python heap and the trace alone *)

Section HeapPure.
Context {DB : Type} (orm : ORM DB).

Lemma same_heap_refl (st : St DB) : same_heap st st.
Proof. repeat split. Qed.

Lemma same_heap_trans (s1 s2 s3 : St DB) :
  same_heap s1 s2 -> same_heap s2 s3 -> same_heap s1 s3.
Proof. intros (A1 & A2 & A3) (B1 & B2 & B3). repeat split; congruence. Qed.

Lemma heap_pure_ret {A} (a : A) : heap_pure (ret a : M (St DB) A).
Proof. intros st r st' H. inversion H; subst. apply same_heap_refl. Qed.

Lemma heap_pure_raise {A} (e : Exn) : heap_pure (raise e : M (St DB) A).
Proof. intros st r st' H. inversion H; subst. apply same_heap_refl. Qed.

Lemma heap_pure_bind {A B} (m : M (St DB) A) (k : A -> M (St DB) B) :
  heap_pure m -> (forall a, heap_pure (k a)) -> heap_pure (bind m k).
Proof.
  intros Hm Hk st r st' H.
  apply bind_inv in H as [(a & s1 & E1 & E2) | (e & E1 & _)].
  - eapply same_heap_trans; [eapply Hm | eapply Hk]; eassumption.
  - eapply Hm; eassumption.
Qed.

Lemma heap_pure_with_rng {A} (m : M Rng A) : heap_pure (with_rng (DB := DB) m).
Proof.
  intros st r st' H. apply with_rng_inv in H as (g' & _ & ->). repeat split.
Qed.

Lemma heap_pure_with_db {A} (m : M DB A) : heap_pure (with_db m).
Proof.
  intros st r st' H. apply with_db_inv in H as (g' & _ & ->). repeat split.
Qed.

Lemma heap_pure_get_customers : heap_pure (get_customers (DB := DB)).
Proof. intros st r st' H. inversion H; subst. apply same_heap_refl. Qed.

Lemma heap_pure_subscript {A} (l : list A) i : heap_pure (subscript (S := St DB) l i).
Proof.
  unfold subscript. destruct (l !! i); [apply heap_pure_ret | apply heap_pure_raise].
Qed.
End HeapPure.

Ltac heap_pure_step :=
  lazymatch goal with
  | |- heap_pure (bind _ _) => apply heap_pure_bind
  | |- heap_pure (ret _) => apply heap_pure_ret
  | |- heap_pure (raise _) => apply heap_pure_raise
  | |- heap_pure (with_rng _) => apply heap_pure_with_rng
  | |- heap_pure (with_db _) => apply heap_pure_with_db
  | |- heap_pure get_customers => apply heap_pure_get_customers
  | |- heap_pure (subscript _ _) => apply heap_pure_subscript
  | |- heap_pure (match ?x with _ => _ end) => destruct x
  | |- forall _, _ => intro
  end.

Section OrderDataFields.
Context {DB : Type} (orm : ORM DB).
Variables (now : datetime) (branch : Branch) (staff_user : User)
          (items : list InventoryItem).

Lemma heap_pure_build_order_data status :
  heap_pure (build_order_data orm now branch staff_user items status).
Proof. unfold build_order_data. repeat heap_pure_step. Qed.

(** Every field of the keyword arguments, traced to where the loop body
    takes it from. *)
Lemma build_order_data_inv status st ci od st' :
  build_order_data orm now branch staff_user items status st = (Ok (ci, od), st') ->
  st_customers st !! ci = Some (od_customer od)
  /\ od_branch od = branch
  /\ (od_type od = "service"%string \/ od_type od = "sales"%string)
  /\ In (od_priority od) ["low"; "medium"; "high"; "urgent"]%string
  /\ 60 <= od_estimated_duration od <= 480
  /\ (od_assigned_to od = Some staff_user \/ od_assigned_to od = None)
  /\ match od_cancelled_at od with
     | Some _ => exists r, od_cancellation_reason od = Some r
                           /\ In r cancellation_reasons
     | None => od_cancellation_reason od = None
     end
  /\ (od_type od = "service"%string ->
      (exists d, od_description od = Some d /\ In d service_descriptions)
      /\ od_item_name od = None /\ od_brand od = None
      /\ od_quantity od = None /\ od_tire_type od = None)
  /\ (od_type od = "sales"%string ->
      od_description od = None
      /\ (exists item, In item items
            /\ od_item_name od = Some (item_name item)
            /\ od_brand od = Some (brand_name (item_brand item)))
      /\ (exists q, od_quantity od = Some q /\ 1 <= q <= 4)
      /\ od_tire_type od = Some "New"%string).
Proof.
  intros H. unfold build_order_data in H.
  apply bind_Ok_inv in H as (cs & s1 & E1 & H). inversion E1; subst cs s1; clear E1.
  apply bind_Ok_inv in H as (ci' & s2 & E2 & H).
  apply bind_Ok_inv in H as (c & s3 & E3 & H).
  apply subscript_inv in E3 as [-> [(c' & Hc & Ec) | [_ Ec]]]; [| discriminate].
  inversion Ec; subst c'; clear Ec.
  apply bind_Ok_inv in H as (hv & s4 & E4 & H).
  apply bind_Ok_inv in H as (veh & s5 & E5 & H).
  apply bind_Ok_inv in H as (ty & s6 & E6 & H).
  apply with_rng_inv in E6 as (g6 & E6 & _). apply choice_inv in E6 as [Hty _].
  assert (Hty' : ty = "service"%string \/ ty = "sales"%string).
  { cbn in Hty. intuition. }
  clear Hty.
  apply bind_Ok_inv in H as (pr & s7 & E7 & H).
  apply with_rng_inv in E7 as (g7 & E7 & _). apply choice_inv in E7 as [Hpr _].
  apply bind_Ok_inv in H as ([[[cr sa] co] ca] & s8 & E8 & H).
  apply bind_Ok_inv in H as (ed & s9 & E9 & H).
  apply with_rng_inv in E9 as (g9 & E9 & _). apply randint_inv in E9 as [Hed _].
  apply bind_Ok_inv in H as (asg & s10 & E10 & H).
  apply bind_Ok_inv in H as (reason & s11 & E11 & H).
  assert (Hreason : match ca with
                    | Some _ => exists r, reason = Some r /\ In r cancellation_reasons
                    | None => reason = None
                    end).
  { destruct ca as [ca |].
    - apply bind_Ok_inv in E11 as (r & s & Er & E11).
      apply with_rng_inv in Er as (g & Er & _). apply choice_inv in Er as [Hr _].
      apply ret_Ok_inv in E11 as [<- _]. eauto.
    - apply ret_Ok_inv in E11 as [<- _]. reflexivity. }
  destruct Hty' as [-> | ->]; cbn [String.eqb Ascii.eqb Bool.eqb] in H.
  - apply bind_Ok_inv in H as (d & s12 & E12 & H).
    apply with_rng_inv in E12 as (g12 & E12 & _). apply choice_inv in E12 as [Hd _].
    apply ret_Ok_inv in H as [H _]. inversion H; subst; clear H. cbn.
    repeat split; auto; try discriminate; try lia.
    all: try (destruct asg; auto; fail).
    all: eauto.
  - apply bind_Ok_inv in H as (item & s12 & E12 & H).
    apply with_rng_inv in E12 as (g12 & E12 & _). apply choice_inv in E12 as [Hitem _].
    apply bind_Ok_inv in H as (q & s13 & E13 & H).
    apply with_rng_inv in E13 as (g13 & E13 & _). apply randint_inv in E13 as [Hq _].
    apply ret_Ok_inv in H as [H _]. inversion H; subst; clear H. cbn.
    repeat split; auto; try discriminate; try lia.
    all: try (destruct asg; auto; fail).
    all: eauto.
Qed.
End OrderDataFields.

(** ** Further properties of the seeded orders *)

(** X1: a status outside the five lifecycle states makes the helper fail
    with UnboundLocalError on [created], before any random draw. *)
Theorem unknown_status_raises (now : datetime) (status : string) (g : Rng) :
  status_of_string status = None ->
  create_timestamps_for_status now status g
  = (Raise (UnboundLocalError "created"), g).
Proof.
  unfold status_of_string, create_timestamps_for_status.
  destruct (String.eqb status "created"); [discriminate |].
  destruct (String.eqb status "in_progress"); [discriminate |].
  destruct (String.eqb status "overdue"); [discriminate |].
  destruct (String.eqb status "completed"); [discriminate |].
  destruct (String.eqb status "cancelled"); [discriminate |].
  reflexivity.
Qed.

Lemma unknown_status_raises_witness :
  create_timestamps_for_status sample_now "pending" counting_tape
  = (Raise (UnboundLocalError "created"), counting_tape).
Proof. apply (unknown_status_raises sample_now "pending" counting_tape). reflexivity. Defined.

Section MoreSeededOrders.
Context {DB : Type} (orm : ORM DB).
Variables (now : datetime) (branch : Branch) (staff_user : User)
          (items : list InventoryItem).

(** X2: every timestamp of an order the loop builds lies strictly before
    the run's instant. *)
Theorem seeded_timestamps_in_the_past status st ci od st' :
  build_order_data orm now branch staff_user items status st = (Ok (ci, od), st') ->
  od_created_at od < now
  /\ match od_started_at od with Some t => t < now | None => True end
  /\ match od_completed_at od with Some t => t < now | None => True end
  /\ match od_cancelled_at od with Some t => t < now | None => True end.
Proof.
  intros H. apply build_order_data_fields in H as (_ & _ & g & g' & H).
  apply timestamps_shape in H
    as [(_ & -> & -> & -> & Ha) | [(_ & -> & -> & -> & Ha) | [(_ & -> & -> & -> & Ha)
        | [(_ & -> & -> & (h & Hh & ->) & Ha) | (_ & -> & -> & (m & Hm & ->) & Ha)]]]];
    cbn; repeat split; try exact I.
  all: try (rewrite Ha, yesterday_815am_eq).
  all: unfold_time; Z.div_mod_to_equations; lia.
Qed.

(** X3: the age of a seeded order at the run's instant, by status: 1 to 8
    minutes for created, 11 to 120 minutes for in_progress, 1 to 30 days for
    completed, 1 to 20 days for cancelled; an overdue order was created at
    08:15 and is between 15h45 and 39h45 old. *)
Theorem seeded_order_age_by_status status st ci od st' :
  build_order_data orm now branch staff_user items status st = (Ok (ci, od), st') ->
  let age := now - od_created_at od in
  match status_of_string (od_status od) with
  | Some created => minutes 1 <= age <= minutes 8
  | Some in_progress => minutes 11 <= age <= minutes 120
  | Some overdue =>
      time_of_day (od_created_at od) = hours 8 + minutes 15
      /\ hours 15 + minutes 45 <= age < hours 39 + minutes 45
  | Some completed => days 1 <= age <= days 30
  | Some cancelled => days 1 <= age <= days 20
  | None => False
  end.
Proof.
  intros H. apply build_order_data_fields in H as (-> & _ & g & g' & H).
  apply timestamps_shape in H
    as [(-> & _ & _ & _ & Ha) | [(-> & _ & _ & _ & Ha) | [(-> & _ & _ & _ & Ha)
        | [(-> & _ & _ & _ & Ha) | (-> & _ & _ & _ & Ha)]]]];
    cbn -[Z.sub]; try exact Ha.
  rewrite Ha, yesterday_815am_eq. split; unfold_time; Z.div_mod_to_equations; lia.
Qed.

(** X4: completed_at is set exactly for status 'completed' and
    cancelled_at exactly for status 'cancelled'; completion_date always
    repeats completed_at. *)
Theorem closing_timestamps_match_status status st ci od st' :
  build_order_data orm now branch staff_user items status st = (Ok (ci, od), st') ->
  (is_Some (od_completed_at od) <-> od_status od = "completed"%string)
  /\ (is_Some (od_cancelled_at od) <-> od_status od = "cancelled"%string)
  /\ od_completion_date od = od_completed_at od.
Proof.
  intros H. apply build_order_data_fields in H as (-> & Hcd & g & g' & H).
  apply timestamps_shape in H
    as [(-> & _ & Hco & Hca & _) | [(-> & _ & Hco & Hca & _) | [(-> & _ & Hco & Hca & _)
        | [(-> & _ & Hca & (h & _ & Hco) & _) | (-> & _ & Hco & (m & _ & Hca) & _)]]]];
    (split; [| split; [| exact Hcd]]); rewrite ?Hco, ?Hca; split; intros Hx;
    try discriminate; try (destruct Hx; discriminate); try reflexivity; eauto.
Qed.

(** X5: a cancellation reason is given exactly when cancelled_at is set,
    and it is one of the four listed reasons. *)
Theorem cancellation_reason_iff_cancelled status st ci od st' :
  build_order_data orm now branch staff_user items status st = (Ok (ci, od), st') ->
  match od_cancelled_at od with
  | Some _ => exists r, od_cancellation_reason od = Some r
                        /\ In r ["Customer request"; "Parts unavailable";
                                 "Weather conditions"; "Customer no-show"]%string
  | None => od_cancellation_reason od = None
  end.
Proof.
  intros H. apply build_order_data_inv in H as (_ & _ & _ & _ & _ & _ & H & _).
  exact H.
Qed.

(** X6: every order is a service order or a sales order.  A service order
    carries one of the five service descriptions and no item data; a sales
    order carries the name and brand of one inventory item, a quantity from
    1 to 4 and tire type 'New', and no description. *)
Theorem order_type_specific_fields status st ci od st' :
  build_order_data orm now branch staff_user items status st = (Ok (ci, od), st') ->
  (od_type od = "service"%string
   /\ (exists d, od_description od = Some d /\ In d service_descriptions)
   /\ od_item_name od = None /\ od_brand od = None
   /\ od_quantity od = None /\ od_tire_type od = None)
  \/ (od_type od = "sales"%string
      /\ od_description od = None
      /\ (exists item, In item items
            /\ od_item_name od = Some (item_name item)
            /\ od_brand od = Some (brand_name (item_brand item)))
      /\ (exists q, od_quantity od = Some q /\ 1 <= q <= 4)
      /\ od_tire_type od = Some "New"%string).
Proof.
  intros H.
  apply build_order_data_inv in H as (_ & _ & [Hty | Hty] & _ & _ & _ & _ & Hs & Hl).
  - left. split; [exact Hty | exact (Hs Hty)].
  - right. split; [exact Hty | exact (Hl Hty)].
Qed.

(** X7: the order names a customer of the list [customers], the default
    branch and the loop's status; its priority is one of the four levels,
    its estimated duration lies between 60 and 480, and it is assigned to
    the staff user or to nobody. *)
Theorem order_common_fields status st ci od st' :
  build_order_data orm now branch staff_user items status st = (Ok (ci, od), st') ->
  st_customers st !! ci = Some (od_customer od)
  /\ od_branch od = branch
  /\ od_status od = status
  /\ In (od_priority od) ["low"; "medium"; "high"; "urgent"]%string
  /\ 60 <= od_estimated_duration od <= 480
  /\ (od_assigned_to od = Some staff_user \/ od_assigned_to od = None).
Proof.
  intros H. pose proof (build_order_data_fields _ _ _ _ _ _ _ _ _ _ H) as (Hst & _).
  apply build_order_data_inv in H as (Hc & Hb & _ & Hp & Hd & Ha & _).
  repeat split; auto; lia.
Qed.

(** X8: up to the [try], an iteration prints nothing, issues no write and
    changes neither a customer object nor [orders_by_status], also when it
    fails. *)
Theorem build_order_data_is_silent status st r st' :
  build_order_data orm now branch staff_user items status st = (r, st') ->
  st_customers st' = st_customers st
  /\ st_orders_by_status st' = st_orders_by_status st
  /\ st_trace st' = st_trace st.
Proof. intros H. exact (heap_pure_build_order_data orm _ _ _ _ _ _ _ _ H). Qed.
End MoreSeededOrders.

(** ** The dict [orders_by_status] *)

Lemma dict_append_shape (key : string) (order : Order)
    (d d' : list (string * list Order)) :
  dict_append key order d = Some d' ->
  In key (map fst d)
  /\ map fst d' = map fst d
  /\ total_orders d' = total_orders d + 1
  /\ forall k, dict_get k d'
               = if String.eqb k key
                 then option_map (fun orders => orders ++ [order]) (dict_get k d)
                 else dict_get k d.
Proof.
  revert d'. induction d as [| [k0 orders] d IH]; intros d' H; [discriminate |].
  cbn in H. destruct (String.eqb_spec k0 key) as [-> | Hne].
  - inversion H; subst; clear H. split; [left; reflexivity |]. split; [reflexivity |].
    split.
    + unfold total_orders. cbn. rewrite length_app. cbn. lia.
    + intros k. cbn. destruct (String.eqb_spec key k) as [<- | Hk].
      * rewrite String.eqb_refl. reflexivity.
      * destruct (String.eqb_spec k key); [congruence | reflexivity].
  - destruct (dict_append key order d) as [d1 |] eqn:E; [| discriminate].
    inversion H; subst; clear H.
    destruct (IH d1 eq_refl) as (Hin & Hk & Ht & Hg).
    split; [right; exact Hin |]. split; [cbn; f_equal; exact Hk |]. split.
    + unfold total_orders in *. cbn. lia.
    + intros k. cbn. destruct (String.eqb_spec k0 k) as [<- | Hk0].
      * destruct (String.eqb_spec k0 key); [congruence | reflexivity].
      * apply Hg.
Qed.

(** X9: appending to a status that is not a key of the dict fails (the
    script's KeyError), and only then. *)
Theorem dict_append_fails_iff_missing_key (key : string) (order : Order)
    (d : list (string * list Order)) :
  dict_append key order d = None <-> ~ In key (map fst d).
Proof.
  split.
  - intros Hn Hin. destruct (dict_append_key key order d Hin) as (d' & E). congruence.
  - intros Hn. destruct (dict_append key order d) as [d' |] eqn:E; [| reflexivity].
    apply dict_append_shape in E as (Hin & _). contradiction.
Qed.

(** X10: after [orders_by_status[key].append(order)] the list under [key]
    is the old one with [order] at its end, every other list is as before,
    the keys and their order are kept, and the total grows by one. *)
Theorem dict_append_get (key : string) (order : Order)
    (d d' : list (string * list Order)) (k : string) :
  dict_append key order d = Some d' ->
  dict_get k d' = (if String.eqb k key
                   then option_map (fun orders => orders ++ [order]) (dict_get k d)
                   else dict_get k d)
  /\ map fst d' = map fst d
  /\ total_orders d' = total_orders d + 1.
Proof.
  intros H. apply dict_append_shape in H as (_ & Hk & Ht & Hg). auto.
Qed.

Lemma dict_append_get_witness :
  exists d',
    dict_append "overdue" (mkOrder "ORD7" sample_now) empty_orders_by_status = Some d'
    /\ dict_get "overdue" d' = Some [mkOrder "ORD7" sample_now]
    /\ map fst d' = map fst empty_orders_by_status
    /\ total_orders d' = total_orders empty_orders_by_status + 1.
Proof.
  eexists. split; [reflexivity |].
  apply (dict_append_get "overdue" (mkOrder "ORD7" sample_now)
           empty_orders_by_status _ "overdue").
  reflexivity.
Defined.

(** ** One iteration of the order loop *)

Lemma visits_total_insert (cs : list Customer) (ci : nat) (c : Customer)
    (created_at : datetime) :
  cs !! ci = Some c ->
  visits_total (<[ci := visited created_at c]> cs) = visits_total cs + 1.
Proof.
  revert ci. induction cs as [| c0 cs IH]; intros [| ci] H; try discriminate.
  - inversion H; subst. cbn. lia.
  - cbn in H. specialize (IH _ H).
    change (<[S ci := visited created_at c]> (c0 :: cs))
      with (c0 :: <[ci := visited created_at c]> cs).
    cbn [visits_total foldr] in *. fold (visits_total cs) in *.
    fold (visits_total (<[ci := visited created_at c]> cs)) in *. lia.
Qed.

Section Iteration.
Context {DB : Type} (orm : ORM DB).

(** X11: when [Order.objects.create] raises, the iteration ends normally
    having printed the error; no customer object is touched, nothing is
    filed in [orders_by_status] and no save is issued. *)
Theorem failed_create_changes_nothing now order_num ci od st e d' :
  Order_create orm od (st_db st) = (Raise e, d') ->
  try_except (create_and_record orm now order_num ci od)
             (fun e => print (LOrderError e)) st
  = (Ok tt, mkSt (st_rng st) d' (st_customers st) (st_orders_by_status st)
                 (st_trace st ++ [CalledOrderCreate od; Printed (LOrderError e)])).
Proof.
  intros H. unfold try_except, create_and_record, bind, print, emit, with_db. cbn.
  rewrite H. cbn. rewrite <- app_assoc. reflexivity.
Qed.

(** X12: when the order is created but [customer.save] raises, the visit
    is already recorded on the customer object and the order is already
    filed under its status; the iteration prints the error instead of the
    order line and ends normally. *)
Theorem failed_save_keeps_visit_in_memory
    now order_num ci od st order d1 c obs e d2 :
  Order_create orm od (st_db st) = (Ok order, d1) ->
  st_customers st !! ci = Some c ->
  dict_append (od_status od) order (st_orders_by_status st) = Some obs ->
  Customer_save orm (visited (od_created_at od) c)
    ["total_visits"; "last_visit"]%string d1 = (Raise e, d2) ->
  try_except (create_and_record orm now order_num ci od)
             (fun e => print (LOrderError e)) st
  = (Ok tt, mkSt (st_rng st) d2
                 (<[ci := visited (od_created_at od) c]> (st_customers st)) obs
                 (st_trace st
                  ++ [CalledOrderCreate od;
                      CalledCustomerSave (visited (od_created_at od) c)
                        ["total_visits"; "last_visit"]%string;
                      Printed (LOrderError e)])).
Proof.
  intros Hcreate Hc Hobs Hsave.
  assert (Hl : alter (set_last_visit (od_created_at od)) ci
                 (alter bump_total_visits ci (st_customers st))
               = <[ci := visited (od_created_at od) c]> (st_customers st)).
  { rewrite list_alter_alter_eq. rewrite (alter_as_insert _ _ _ _ Hc). cbn.
    rewrite set_last_visit_bump. reflexivity. }
  assert (Hlk : <[ci := visited (od_created_at od) c]> (st_customers st) !! ci
                = Some (visited (od_created_at od) c)).
  { apply list_lookup_insert_eq. eapply lookup_lt_Some. exact Hc. }
  unfold try_except, create_and_record, bind, emit, with_db, append_order,
    get_orders_by_status, set_orders_by_status, assign_customer,
    get_customers, set_customers, subscript, print, emit.
  cbn. rewrite Hcreate. cbn. rewrite Hobs. cbn. rewrite Hl, Hlk. cbn.
  rewrite Hsave. cbn. repeat rewrite <- app_assoc. reflexivity.
Qed.

(** What one [try] statement does to the objects and to the saves. *)
Lemma try_create_and_record_effect now order_num ci od st c r st' :
  st_customers st !! ci = Some c ->
  try_except (create_and_record orm now order_num ci od)
             (fun e => print (LOrderError e)) st = (r, st') ->
  r = Ok tt
  /\ ((st_customers st' = st_customers st
       /\ st_orders_by_status st' = st_orders_by_status st
       /\ saves (st_trace st') = saves (st_trace st))
      \/ (exists order,
            dict_append (od_status od) order (st_orders_by_status st)
            = Some (st_orders_by_status st')
            /\ st_customers st' = <[ci := visited (od_created_at od) c]> (st_customers st)
            /\ saves (st_trace st')
               = saves (st_trace st)
                 ++ [(visited (od_created_at od) c,
                      ["total_visits"; "last_visit"]%string)])).
Proof.
  intros Hc.
  assert (Hl : alter (set_last_visit (od_created_at od)) ci
                 (alter bump_total_visits ci (st_customers st))
               = <[ci := visited (od_created_at od) c]> (st_customers st)).
  { rewrite list_alter_alter_eq. rewrite (alter_as_insert _ _ _ _ Hc). cbn.
    rewrite set_last_visit_bump. reflexivity. }
  assert (Hlk : <[ci := visited (od_created_at od) c]> (st_customers st) !! ci
                = Some (visited (od_created_at od) c)).
  { apply list_lookup_insert_eq. eapply lookup_lt_Some. exact Hc. }
  unfold try_except, create_and_record, bind, emit, with_db, append_order,
    get_orders_by_status, set_orders_by_status, assign_customer,
    get_customers, set_customers, subscript, print, emit.
  cbn.
  destruct (Order_create orm od (st_db st)) as [[order | e] d1]; cbn.
  - destruct (dict_append (od_status od) order (st_orders_by_status st))
      as [obs |] eqn:Hobs; cbn.
    + rewrite Hl, Hlk. cbn.
      destruct (Customer_save orm (visited (od_created_at od) c)
                  ["total_visits"; "last_visit"]%string d1) as [[[] | e] d2]; cbn;
        intros H; inversion H; subst; clear H; (split; [reflexivity |]);
        right; exists order; cbn; (split; [exact Hobs |]); (split; [reflexivity |]);
        repeat rewrite saves_app; cbn; rewrite ?app_nil_r; reflexivity.
    + intros H; inversion H; subst; clear H. split; [reflexivity |]. left. cbn.
      repeat split. repeat rewrite saves_app. cbn. rewrite ?app_nil_r. reflexivity.
  - intros H; inversion H; subst; clear H. split; [reflexivity |]. left. cbn.
    repeat split. repeat rewrite saves_app. cbn. rewrite ?app_nil_r. reflexivity.
Qed.
End Iteration.

(** ** Bookkeeping over the whole loop *)

Section Bookkeeping.
Context {DB : Type} (orm : ORM DB).
Variables (now : datetime) (branch : Branch) (staff_user : User)
          (items : list InventoryItem).

Lemma seed_order_bookkeeping order_num status st r st' :
  seed_order orm now branch staff_user items order_num status st = (r, st') ->
  0 <= filed st st' <= 1 /\ bookkeeping_agrees st st'.
Proof.
  unfold seed_order, bookkeeping_agrees, filed. intros H.
  apply bind_inv in H as [([ci od] & s1 & E1 & E2) | (e & E1 & _)].
  - pose proof (heap_pure_build_order_data orm _ _ _ _ _ _ _ _ E1) as (Hcs & Hobs & Htr).
    apply build_order_data_inv in E1 as (Hc & _). rewrite <- Hcs in Hc.
    apply (try_create_and_record_effect orm _ _ _ _ _ _ _ _ Hc) in E2
      as (_ & [(Hcs' & Hobs' & Hsv) | (order & Hobs' & Hcs' & Hsv)]).
    + rewrite Hcs', Hobs', Hsv, Hcs, Hobs, Htr. repeat split; lia || reflexivity.
    + apply dict_append_shape in Hobs' as (_ & Hk & Ht & _).
      rewrite Hcs', Hsv, Ht, Hk, (visits_total_insert _ _ _ _ Hc), length_app.
      rewrite length_insert.
      rewrite Hcs, Hobs, Htr. cbn [length]. repeat split; lia || reflexivity.
  - pose proof (heap_pure_build_order_data orm _ _ _ _ _ _ _ _ E1) as (Hcs & Hobs & Htr).
    rewrite Hcs, Hobs, Htr. repeat split; lia || reflexivity.
Qed.

(** X13: over the loop, whatever fails, the three counts move together:
    the number of orders filed in [orders_by_status] is the number of
    visits added to the customer objects and the number of saves issued; it
    is at most the number of statuses looped over, and the keys of
    [orders_by_status] stay as they were. *)
Theorem loop_bookkeeping_agrees statuses order_num st r st' :
  seed_orders orm now branch staff_user items order_num statuses st = (r, st') ->
  0 <= total_orders (st_orders_by_status st') - total_orders (st_orders_by_status st)
    <= Z.of_nat (length statuses)
  /\ visits_total (st_customers st') - visits_total (st_customers st)
     = total_orders (st_orders_by_status st') - total_orders (st_orders_by_status st)
  /\ Z.of_nat (length (saves (st_trace st')))
     = Z.of_nat (length (saves (st_trace st)))
       + (total_orders (st_orders_by_status st') - total_orders (st_orders_by_status st))
  /\ map fst (st_orders_by_status st') = map fst (st_orders_by_status st)
  /\ length (st_customers st') = length (st_customers st).
Proof.
  revert order_num st. induction statuses as [| status rest IH]; intros order_num st H.
  - inversion H; subst. cbn. repeat split; lia || reflexivity.
  - cbn [seed_orders] in H.
    apply bind_inv in H as [([] & s1 & E1 & E2) | (e & E1 & _)].
    + apply seed_order_bookkeeping in E1 as (Hn & Hv & Hs & Hk & Hl).
      apply IH in E2 as (Hn' & Hv' & Hs' & Hk' & Hl').
      unfold bookkeeping_agrees, filed in *. cbn [length]. rewrite Hk', Hk, Hl', Hl.
      repeat split; lia || reflexivity.
    + apply seed_order_bookkeeping in E1 as (Hn & Hv & Hs & Hk & Hl).
      unfold bookkeeping_agrees, filed in *. cbn [length].
      repeat split; try lia; assumption.
Qed.
End Bookkeeping.

Lemma loop_bookkeeping_agrees_witness :
  let st := mkSt counting_tape (mkToyDB [] [] 3)
              (st_customers sample_state) empty_orders_by_status [] in
  let st' := snd (seed_orders toy_orm sample_now sample_branch sample_user
                    sample_items 0 order_statuses st) in
  0 <= total_orders (st_orders_by_status st') - total_orders (st_orders_by_status st)
    <= Z.of_nat (length order_statuses)
  /\ visits_total (st_customers st') - visits_total (st_customers st)
     = total_orders (st_orders_by_status st') - total_orders (st_orders_by_status st)
  /\ Z.of_nat (length (saves (st_trace st')))
     = Z.of_nat (length (saves (st_trace st)))
       + (total_orders (st_orders_by_status st') - total_orders (st_orders_by_status st))
  /\ map fst (st_orders_by_status st') = map fst (st_orders_by_status st)
  /\ length (st_customers st') = length (st_customers st).
Proof.
  intros st st'.
  apply (loop_bookkeeping_agrees toy_orm sample_now sample_branch sample_user
           sample_items order_statuses 0 st
           (fst (seed_orders toy_orm sample_now sample_branch sample_user
                   sample_items 0 order_statuses st)) st').
  vm_compute. reflexivity.
Defined.

(** ** The phases before the loop *)

Lemma collect_Forall2 {S A B} (P : A -> B -> Prop) (f : A -> M S B) :
  (forall x s b s', f x s = (Ok b, s') -> P x b) ->
  forall xs s bs s', collect xs f s = (Ok bs, s') -> Forall2 P xs bs.
Proof.
  intros Hf xs. induction xs as [| x xs IH]; intros s bs s' H.
  - inversion H; subst. constructor.
  - cbn [collect] in H.
    apply bind_Ok_inv in H as (b & s1 & E1 & H).
    apply bind_Ok_inv in H as (bs' & s2 & E2 & H).
    apply ret_Ok_inv in H as [<- _]. constructor; eauto.
Qed.

Lemma collect_length {S A B} (f : A -> M S B) xs s bs s' :
  collect xs f s = (Ok bs, s') -> length bs = length xs.
Proof.
  intros H. apply (collect_Forall2 (fun _ _ => True)) in H; [| auto].
  symmetry. eapply Forall2_length. exact H.
Qed.

Lemma concat_length_bounds {A B} (lo hi : nat) (xs : list A) (bss : list (list B)) :
  Forall2 (fun _ bs => lo <= length bs <= hi)%nat xs bss ->
  (lo * length xs <= length (concat bss) <= hi * length xs)%nat.
Proof.
  induction 1 as [| x bs xs bss Hb _ IH]; cbn.
  - lia.
  - rewrite length_app. lia.
Qed.

Section Phases.
Context {DB : Type} (orm : ORM DB).


End Phases.

(** ** The summary *)

(** X16: [oldest] is the minimum of the created_at values of a non-empty
    list of orders: it bounds each of them from below and is one of them. *)
Theorem oldest_is_minimum (o : Order) (orders : list Order) :
  Forall (fun o' => oldest o orders <= order_created_at o') (o :: orders)
  /\ In (oldest o orders) (map order_created_at (o :: orders)).
Proof.
  induction orders as [| o1 orders [IHle IHin]].
  - cbn. split; [repeat constructor; lia | auto].
  - unfold oldest in *. cbn [foldr map] in *.
    set (m := foldr (fun o' acc => Z.min (order_created_at o') acc)
                (order_created_at o) orders) in *.
    inversion IHle as [| ? ? Ho Hrest]; subst. split.
    + constructor; [lia |]. constructor; [lia |].
      eapply Forall_impl; [exact Hrest |]. cbn. intros; lia.
    + destruct (Z.min_spec (order_created_at o1) m) as [[_ ->] | [_ ->]].
      * right. left. reflexivity.
      * destruct IHin as [Hm | Hm]; [left; exact Hm | right; right; exact Hm].
Qed.

(** ** Computations that keep an observation of the state *)

Section Keeps.
Context {DB X : Type} (f : St DB -> X).

Lemma keeps_ret {A} (a : A) : keeps f (ret a : M (St DB) A).
Proof. intros st r st' H. inversion H; subst. reflexivity. Qed.

Lemma keeps_raise {A} (e : Exn) : keeps f (raise e : M (St DB) A).
Proof. intros st r st' H. inversion H; subst. reflexivity. Qed.

Lemma keeps_bind {A B} (m : M (St DB) A) (k : A -> M (St DB) B) :
  keeps f m -> (forall a, keeps f (k a)) -> keeps f (bind m k).
Proof.
  intros Hm Hk st r st' H.
  apply bind_inv in H as [(a & s1 & E1 & E2) | (e & E1 & _)].
  - rewrite (Hk _ _ _ _ E2). eauto.
  - eauto.
Qed.

Lemma keeps_for_each {A} (xs : list A) (body : A -> M (St DB) unit) :
  (forall x, keeps f (body x)) -> keeps f (for_each xs body).
Proof.
  intros Hb. induction xs as [| x xs IH]; cbn.
  - apply keeps_ret.
  - apply keeps_bind; auto.
Qed.

Lemma keeps_collect {A B} (xs : list A) (body : A -> M (St DB) B) :
  (forall x, keeps f (body x)) -> keeps f (collect xs body).
Proof.
  intros Hb. induction xs as [| x xs IH]; cbn.
  - apply keeps_ret.
  - apply keeps_bind; [auto |]. intros b.
    apply keeps_bind; [auto |]. intros bs. apply keeps_ret.
Qed.

Lemma keeps_subscript {A} (l : list A) i : keeps f (subscript (S := St DB) l i).
Proof. unfold subscript. destruct (l !! i); [apply keeps_ret | apply keeps_raise]. Qed.

Lemma keeps_get_customers : keeps f get_customers.
Proof. intros st r st' H. inversion H; subst. reflexivity. Qed.

Lemma keeps_get_orders_by_status : keeps f get_orders_by_status.
Proof. intros st r st' H. inversion H; subst. reflexivity. Qed.

Lemma keeps_with_rng {A} (m : M Rng A) :
  (forall st g, f (mkSt g (st_db st) (st_customers st) (st_orders_by_status st)
                        (st_trace st)) = f st) ->
  keeps f (with_rng m).
Proof. intros Hf st r st' H. apply with_rng_inv in H as (g' & _ & ->). apply Hf. Qed.

Lemma keeps_with_db {A} (m : M DB A) :
  (forall st d, f (mkSt (st_rng st) d (st_customers st) (st_orders_by_status st)
                        (st_trace st)) = f st) ->
  keeps f (with_db m).
Proof. intros Hf st r st' H. apply with_db_inv in H as (g' & _ & ->). apply Hf. Qed.

Lemma keeps_print (l : Line) :
  (forall st, f (mkSt (st_rng st) (st_db st) (st_customers st)
                      (st_orders_by_status st) (st_trace st ++ [Printed l])) = f st) ->
  keeps f (print l).
Proof. intros Hf st r st' H. inversion H; subst. apply Hf. Qed.

Lemma keeps_set_customers cs :
  (forall st, f (mkSt (st_rng st) (st_db st) cs (st_orders_by_status st)
                      (st_trace st)) = f st) ->
  keeps f (set_customers cs).
Proof. intros Hf st r st' H. inversion H; subst. apply Hf. Qed.

Lemma keeps_set_orders_by_status d :
  (forall st, f (mkSt (st_rng st) (st_db st) (st_customers st) d (st_trace st)) = f st) ->
  keeps f (set_orders_by_status d).
Proof. intros Hf st r st' H. inversion H; subst. apply Hf. Qed.
End Keeps.

Lemma order_errors_app (tr tr' : list Event) :
  order_errors (tr ++ tr') = (order_errors tr + order_errors tr')%nat.
Proof.
  induction tr as [| ev tr IH]; [reflexivity |].
  destruct ev as [[] | |]; cbn; rewrite IH; reflexivity.
Qed.

Lemma dict_get_key (key : string) (d : list (string * list Order)) :
  In key (map fst d) -> exists orders, dict_get key d = Some orders.
Proof.
  induction d as [| [k orders] d IH]; intros Hin; [destruct Hin |].
  cbn. destruct (String.eqb_spec k key) as [-> | Hne]; [eauto |].
  destruct Hin as [Hk | Hin]; [cbn in Hk; congruence | auto].
Qed.

Lemma filed_under_append (key : string) (order : Order)
    (d d' : list (string * list Order)) (k : string) :
  dict_append key order d = Some d' ->
  filed_under k d' = (filed_under k d + if String.eqb k key then 1 else 0)%nat.
Proof.
  intros H. apply dict_append_shape in H as (Hin & _ & _ & Hg).
  unfold filed_under. rewrite Hg.
  destruct (String.eqb_spec k key) as [-> | Hne]; [| lia].
  destruct (dict_get_key _ _ Hin) as (orders & ->). cbn. rewrite length_app. cbn. lia.
Qed.

(** ** How many orders each status ends up with *)

Section Populated.
Context {DB : Type} (orm : ORM DB).
Variables (now : datetime) (branch : Branch) (staff_user : User)
          (items : list InventoryItem).

(** One [try] statement: either nothing is filed and an error line is
    printed, or the order is filed under its status and at most one error
    line is printed. *)
Lemma try_create_and_record_filed order_num ci od st c r st' :
  st_customers st !! ci = Some c ->
  try_except (create_and_record orm now order_num ci od)
             (fun e => print (LOrderError e)) st = (r, st') ->
  (st_orders_by_status st' = st_orders_by_status st
   /\ errors_of st' = S (errors_of st))
  \/ (exists order,
        dict_append (od_status od) order (st_orders_by_status st)
        = Some (st_orders_by_status st')
        /\ (errors_of st' = errors_of st \/ errors_of st' = S (errors_of st))).
Proof.
  intros Hc.
  assert (Hl : alter (set_last_visit (od_created_at od)) ci
                 (alter bump_total_visits ci (st_customers st))
               = <[ci := visited (od_created_at od) c]> (st_customers st)).
  { rewrite list_alter_alter_eq. rewrite (alter_as_insert _ _ _ _ Hc). cbn.
    rewrite set_last_visit_bump. reflexivity. }
  assert (Hlk : <[ci := visited (od_created_at od) c]> (st_customers st) !! ci
                = Some (visited (od_created_at od) c)).
  { apply list_lookup_insert_eq. eapply lookup_lt_Some. exact Hc. }
  unfold try_except, create_and_record, bind, emit, with_db, append_order,
    get_orders_by_status, set_orders_by_status, assign_customer,
    get_customers, set_customers, subscript, print, emit, errors_of.
  cbn.
  destruct (Order_create orm od (st_db st)) as [[order | e] d1]; cbn.
  - destruct (dict_append (od_status od) order (st_orders_by_status st))
      as [obs |] eqn:Hobs; cbn.
    + rewrite Hl, Hlk. cbn.
      destruct (Customer_save orm (visited (od_created_at od) c)
                  ["total_visits"; "last_visit"]%string d1) as [[[] | e] d2]; cbn;
        intros H; inversion H; subst; clear H;
        right; exists order; cbn; (split; [exact Hobs |]);
        repeat rewrite order_errors_app; cbn; lia.
    + intros H; inversion H; subst; clear H. left. cbn.
      repeat rewrite order_errors_app. cbn. split; [reflexivity | lia].
  - intros H; inversion H; subst; clear H. left. cbn.
    repeat rewrite order_errors_app. cbn. split; [reflexivity | lia].
Qed.

(** One iteration that ends normally files at most one order, under its own
    status, and misses it only with an error line. *)
Lemma seed_order_filed order_num status st st' (k : string) :
  seed_order orm now branch staff_user items order_num status st = (Ok tt, st') ->
  let one := if String.eqb k status then 1%nat else 0%nat in
  (filed_under k (st_orders_by_status st')
   <= filed_under k (st_orders_by_status st) + one)%nat
  /\ (filed_under k (st_orders_by_status st) + one + errors_of st
      <= filed_under k (st_orders_by_status st') + errors_of st')%nat
  /\ (errors_of st <= errors_of st')%nat
  /\ map fst (st_orders_by_status st') = map fst (st_orders_by_status st).
Proof.
  unfold seed_order. intros H.
  apply bind_Ok_inv in H as ([ci od] & s1 & E1 & E2).
  pose proof (heap_pure_build_order_data orm _ _ _ _ _ _ _ _ E1) as (Hcs & Hobs & Htr).
  pose proof (build_order_data_fields _ _ _ _ _ _ _ _ _ _ E1) as (Hst & _).
  apply build_order_data_inv in E1 as (Hc & _). rewrite <- Hcs in Hc.
  assert (He : errors_of s1 = errors_of st) by (unfold errors_of; rewrite Htr; reflexivity).
  apply (try_create_and_record_filed _ _ _ _ _ _ _ Hc) in E2
    as [(Hobs' & Herr) | (order & Hobs' & Herr)].
  - rewrite Hobs', Hobs, Herr, He. cbv zeta.
    destruct (String.eqb k status); repeat split; lia.
  - rewrite Hobs, Hst in Hobs'.
    rewrite (filed_under_append _ _ _ _ k Hobs').
    apply dict_append_shape in Hobs' as (_ & Hk & _). rewrite Hk. cbv zeta.
    destruct (String.eqb k status); repeat split; lia.
Qed.

(** A loop that runs to its end: each status holds at most as many new
    orders as the loop had entries for it, and misses at most as many as
    error lines were printed. *)
Lemma seed_orders_filed statuses order_num st st' (k : string) :
  seed_orders orm now branch staff_user items order_num statuses st = (Ok tt, st') ->
  (filed_under k (st_orders_by_status st')
   <= filed_under k (st_orders_by_status st) + count_occ String.string_dec statuses k)%nat
  /\ (filed_under k (st_orders_by_status st) + count_occ String.string_dec statuses k
      + errors_of st
      <= filed_under k (st_orders_by_status st') + errors_of st')%nat
  /\ (errors_of st <= errors_of st')%nat
  /\ map fst (st_orders_by_status st') = map fst (st_orders_by_status st).
Proof.
  revert order_num st. induction statuses as [| status rest IH]; intros order_num st H.
  - inversion H; subst. cbn. repeat split; lia.
  - cbn [seed_orders] in H.
    apply bind_Ok_inv in H as ([] & s1 & E1 & E2).
    apply (seed_order_filed _ _ _ _ k) in E1 as (A1 & A2 & A3 & A4).
    apply IH in E2 as (B1 & B2 & B3 & B4).
    cbv zeta in A1, A2. cbn [count_occ]. rewrite B4, A4.
    destruct (String.string_dec status k) as [-> | Hne].
    + rewrite String.eqb_refl in A1, A2. repeat split; lia.
    + destruct (String.eqb_spec k status) as [-> | _]; [congruence |].
      repeat split; lia.
Qed.
End Populated.

(** ** Attempts in any run *)

Section Prefix.
Context {DB : Type} (orm : ORM DB).

Lemma prefixing_quiet {A} statuses (m : M (St DB) A) :
  quiet m -> prefixing statuses m.
Proof.
  intros Q st r st' H. exists [], statuses. rewrite (Q _ _ _ H), app_nil_r.
  split; reflexivity.
Qed.

Lemma prefixing_bind_quiet {A B} statuses (m : M (St DB) A) (k : A -> M (St DB) B) :
  quiet m -> (forall a, prefixing statuses (k a)) -> prefixing statuses (bind m k).
Proof.
  intros Q Hk st r st' H.
  apply bind_inv in H as [(a & s1 & E1 & E2) | (e & E1 & _)].
  - destruct (Hk _ _ _ _ E2) as (done & rest & Hc & Hs).
    exists done, rest. rewrite Hc, (Q _ _ _ E1). split; [reflexivity | exact Hs].
  - exact (prefixing_quiet _ _ Q _ _ _ E1).
Qed.

Lemma prefixing_seed_orders now branch staff_user items statuses order_num :
  prefixing statuses (seed_orders orm now branch staff_user items order_num statuses).
Proof.
  revert order_num. induction statuses as [| status rest IH]; intros order_num st r st' H.
  - inversion H; subst. exists [], []. rewrite app_nil_r. split; reflexivity.
  - cbn [seed_orders] in H.
    apply bind_inv in H as [([] & s1 & E1 & E2) | (e & E1 & _)].
    + apply seed_order_creates in E1 as [(e & He & _) | (_ & od & Hod & E1)];
        [discriminate |].
      destruct (IH _ _ _ _ E2) as (done & rest' & Hc & Hs).
      exists (od :: done), rest'. rewrite Hc, E1, <- app_assoc. cbn.
      split; [reflexivity |]. rewrite Hod, Hs. reflexivity.
    + apply seed_order_creates in E1 as [(e' & _ & E1) | (He & _)];
        [| discriminate].
      exists [], (status :: rest). rewrite E1, app_nil_r. split; reflexivity.
Qed.

(** Whatever happens, the statuses attempted in a run of
    [create_sample_data] are the first ones of [order_statuses]. *)
Lemma prefixing_create_sample_data now :
  prefixing order_statuses (create_sample_data orm now).
Proof.
  unfold create_sample_data.
  apply prefixing_bind_quiet; [apply quiet_print | intros _].
  apply prefixing_bind_quiet; [apply quiet_print | intros _].
  apply prefixing_bind_quiet; [apply quiet_print | intros _].
  apply prefixing_bind_quiet; [apply quiet_get_or_create_branch | intros branch].
  apply prefixing_bind_quiet; [apply quiet_get_or_create_user | intros staff_user].
  apply prefixing_bind_quiet; [apply quiet_print | intros _].
  apply prefixing_bind_quiet;
    [apply quiet_collect; intros; apply quiet_create_customer | intros customers].
  apply prefixing_bind_quiet; [apply quiet_set_customers | intros _].
  apply prefixing_bind_quiet; [apply quiet_print | intros _].
  apply prefixing_bind_quiet; [apply quiet_create_vehicles | intros vehicles].
  apply prefixing_bind_quiet; [apply quiet_print | intros _].
  apply prefixing_bind_quiet;
    [apply quiet_collect; intros; apply quiet_create_brand | intros brands].
  apply prefixing_bind_quiet; [apply quiet_create_inventory | intros inventory].
  apply prefixing_bind_quiet; [apply quiet_print | intros _].
  apply prefixing_bind_quiet; [apply quiet_print | intros _].
  apply prefixing_bind_quiet; [apply quiet_set_orders_by_status | intros _].
  intros st r st' H.
  apply bind_inv in H as [([] & s1 & E1 & E2) | (e & E1 & _)].
  - apply prefixing_seed_orders in E1 as (done & rest & Hc & Hs).
    apply quiet_print_summary in E2.
    exists done, rest. rewrite E2. split; [exact Hc | exact Hs].
  - exact (prefixing_seed_orders _ _ _ _ _ _ _ _ _ E1).
Qed.
End Prefix.

Ltac keeps_side :=
  intros; cbn; rewrite ?saves_app, ?order_errors_app, ?creates_app; cbn;
  rewrite ?app_nil_r, ?Nat.add_0_r; reflexivity.

Ltac keeps_step :=
  lazymatch goal with
  | |- keeps _ (bind _ _) => apply keeps_bind
  | |- keeps _ (ret _) => apply keeps_ret
  | |- keeps _ (raise _) => apply keeps_raise
  | |- keeps _ (with_rng _) => apply keeps_with_rng; keeps_side
  | |- keeps _ (with_db _) => apply keeps_with_db; keeps_side
  | |- keeps _ (print _) => apply keeps_print; keeps_side
  | |- keeps _ get_customers => apply keeps_get_customers
  | |- keeps _ get_orders_by_status => apply keeps_get_orders_by_status
  | |- keeps _ (set_customers _) => apply keeps_set_customers; keeps_side
  | |- keeps _ (set_orders_by_status _) => apply keeps_set_orders_by_status; keeps_side
  | |- keeps _ (subscript _ _) => apply keeps_subscript
  | |- keeps _ (for_each _ _) => apply keeps_for_each
  | |- keeps _ (collect _ _) => apply keeps_collect
  | |- keeps _ (match ?x with _ => _ end) => destruct x
  | |- forall _, _ => intro
  end.

Section RunCounts.
Context {DB : Type} (orm : ORM DB).

Lemma keeps_errors_get_or_create_branch : keeps errors_of (get_or_create_branch orm).
Proof. unfold get_or_create_branch, errors_of. repeat keeps_step. Qed.

Lemma keeps_errors_get_or_create_user : keeps errors_of (get_or_create_user orm).
Proof. unfold get_or_create_user, errors_of. repeat keeps_step. Qed.

Lemma keeps_errors_create_customer now branch entry :
  keeps errors_of (create_customer orm now branch entry).
Proof. unfold create_customer, errors_of. repeat keeps_step. Qed.

Lemma keeps_errors_create_vehicles customers :
  keeps errors_of (create_vehicles orm customers).
Proof. unfold create_vehicles, create_vehicle, errors_of. repeat keeps_step. Qed.

Lemma keeps_errors_create_brand entry : keeps errors_of (create_brand orm entry).
Proof. unfold create_brand, errors_of. repeat keeps_step. Qed.

Lemma keeps_errors_create_inventory brands :
  keeps errors_of (create_inventory orm brands).
Proof. unfold create_inventory, create_item, errors_of. repeat keeps_step. Qed.

Lemma keeps_errors_and_orders_print_summary now vehicles :
  keeps errors_and_orders (print_summary orm now vehicles).
Proof.
  unfold print_summary, print_status_group, print_visits, errors_and_orders.
  repeat keeps_step.
Qed.

Lemma keeps_errors_print (l : Line) :
  is_order_error (Printed l) = false -> keeps errors_of (print (DB := DB) l).
Proof.
  intros Hl. apply keeps_print. intros st. unfold errors_of. cbn.
  rewrite order_errors_app. destruct l; cbn in *; try discriminate; lia.
Qed.

(** A run of [create_sample_data] that returns: the loop started from five
    empty lists, so each status holds at most 4 orders and misses at most
    as many as error lines were printed since the start. *)
Lemma create_sample_data_filed now st st' (k : string) :
  create_sample_data orm now st = (Ok tt, st') ->
  In k (map fst empty_orders_by_status) ->
  exists orders,
    dict_get k (st_orders_by_status st') = Some orders
    /\ (length orders <= 4)%nat
    /\ (4 + errors_of st <= length orders + errors_of st')%nat.
Proof.
  unfold create_sample_data. intros H Hk.
  apply bind_Ok_inv in H as (? & s1 & E1 & H).
  apply keeps_errors_print in E1; [| reflexivity].
  apply bind_Ok_inv in H as (? & s2 & E2 & H).
  apply keeps_errors_print in E2; [| reflexivity].
  apply bind_Ok_inv in H as (? & s3 & E3 & H).
  apply keeps_errors_print in E3; [| reflexivity].
  apply bind_Ok_inv in H as (br & s4 & E4 & H).
  apply keeps_errors_get_or_create_branch in E4.
  apply bind_Ok_inv in H as (us & s5 & E5 & H).
  apply keeps_errors_get_or_create_user in E5.
  apply bind_Ok_inv in H as (? & s6 & E6 & H).
  apply keeps_errors_print in E6; [| reflexivity].
  apply bind_Ok_inv in H as (cs & s7 & E7 & H).
  apply (keeps_collect errors_of) in E7; [| intros; apply keeps_errors_create_customer].
  apply bind_Ok_inv in H as (? & s8 & E8 & H).
  apply (keeps_set_customers errors_of) in E8; [| reflexivity].
  apply bind_Ok_inv in H as (? & s9 & E9 & H).
  apply keeps_errors_print in E9; [| reflexivity].
  apply bind_Ok_inv in H as (vs & s10 & E10 & H).
  apply keeps_errors_create_vehicles in E10.
  apply bind_Ok_inv in H as (? & s11 & E11 & H).
  apply keeps_errors_print in E11; [| reflexivity].
  apply bind_Ok_inv in H as (bs & s12 & E12 & H).
  apply (keeps_collect errors_of) in E12; [| intros; apply keeps_errors_create_brand].
  apply bind_Ok_inv in H as (its & s13 & E13 & H).
  apply keeps_errors_create_inventory in E13.
  apply bind_Ok_inv in H as (? & s14 & E14 & H).
  apply keeps_errors_print in E14; [| reflexivity].
  apply bind_Ok_inv in H as (? & s15 & E15 & H).
  apply keeps_errors_print in E15; [| reflexivity].
  apply bind_Ok_inv in H as (? & s16 & E16 & H).
  assert (Hobs : st_orders_by_status s16 = empty_orders_by_status)
    by (inversion E16; reflexivity).
  apply (keeps_set_orders_by_status errors_of) in E16; [| reflexivity].
  apply bind_Ok_inv in H as ([] & s17 & E17 & H).
  apply (seed_orders_filed _ _ _ _ _ _ _ _ _ k) in E17 as (A1 & A2 & _ & A4).
  apply keeps_errors_and_orders_print_summary in H.
  unfold errors_and_orders in H. inversion H as [[He Ho]].
  change (order_errors (st_trace st')) with (errors_of st') in He.
  change (order_errors (st_trace s17)) with (errors_of s17) in He.
  rewrite Hobs in A1, A2, A4.
  assert (Hk' : In k (map fst (st_orders_by_status s17))) by (rewrite A4; exact Hk).
  destruct (dict_get_key _ _ Hk') as (orders & Hg).
  exists orders. split; [rewrite Ho; exact Hg |].
  unfold filed_under in A1, A2. rewrite Hg in A1, A2.
  assert (Hcount : count_occ String.string_dec order_statuses k = 4%nat).
  { cbn in Hk. destruct Hk as [<- | [<- | [<- | [<- | [<- | []]]]]]; reflexivity. }
  assert (Hzero : length (default [] (dict_get k empty_orders_by_status)) = 0%nat).
  { cbn in Hk. destruct Hk as [<- | [<- | [<- | [<- | [<- | []]]]]]; reflexivity. }
  rewrite Hcount, Hzero in A1, A2. cbn in A1, A2. lia.
Qed.
End RunCounts.

(** C7, as stated, fails in two ways.  A run whose vehicle lookup breaks
    down after five orders ends with exit status 1 after 5 attempts, not
    20.  A run whose order table holds 16 orders ends with exit status 0
    after 20 attempts, yet no order with status 'cancelled' exists: that
    lifecycle state is not populated. *)
Lemma not_every_run_seeds_every_state :
  (fst outage_run = 1
   /\ length (creates (st_trace (snd outage_run))) = 5%nat)
  /\ (fst short_table_run = 0
      /\ length (creates (st_trace (snd short_table_run))) = 20%nat
      /\ dict_get "cancelled" (st_orders_by_status (snd short_table_run)) = Some []
      /\ length (toy_orders (st_db (snd short_table_run))) = 16%nat).
Proof. vm_compute. repeat split; reflexivity. Qed.

Section Attempts.
Context {DB : Type} (orm : ORM DB).

(** C7, amended: in every run the statuses of the orders attempted are the
    first entries of [order_statuses], in order.  A run that ends with exit
    status 0 has attempted all 20, four for each of the five lifecycle
    states; each state then holds at most 4 orders and misses at most as
    many as error lines were printed, so every state is populated when
    fewer than four iterations failed. *)
Theorem seeder_attempts_and_fills_states now g d code st' :
  main orm now g d = (code, st') ->
  let attempted := map od_status (creates (st_trace st')) in
  (exists rest, order_statuses = attempted ++ rest)
  /\ match code with
     | 0 =>
         attempted = order_statuses
         /\ length attempted = 20%nat
         /\ Forall (fun s => count_occ String.string_dec attempted s = 4%nat)
                   ["created"; "in_progress"; "overdue"; "completed"; "cancelled"]%string
         /\ Forall (fun s => exists orders,
                       dict_get s (st_orders_by_status st') = Some orders
                       /\ (length orders <= 4)%nat
                       /\ (4 <= length orders + order_errors (st_trace st'))%nat)
                   ["created"; "in_progress"; "overdue"; "completed"; "cancelled"]%string
     | _ => True
     end.
Proof.
  unfold main. intros H.
  destruct (create_sample_data orm now (initial_state g d)) as [[[] | e] s] eqn:E;
    inversion H; subst; clear H; cbv zeta.
  - pose proof (create_sample_data_creates orm _ _ _ E) as Hc. cbn in Hc.
    rewrite Hc. split; [exists []; reflexivity |].
    split; [reflexivity |]. split; [reflexivity |]. split; [repeat constructor |].
    repeat (constructor;
            [match goal with
             | |- exists orders, dict_get ?k _ = Some orders /\ _ =>
                 assert (Hk : In k (map fst empty_orders_by_status)) by (cbn; tauto);
                 destruct (create_sample_data_filed orm _ _ _ k E Hk)
                   as (orders & Hg & Hle & Hge);
                 exists orders; split; [exact Hg |];
                 unfold errors_of in Hge; cbn in Hge; lia
             end |]).
    constructor.
  - destruct (prefixing_create_sample_data orm _ _ _ _ E) as (done & rest & Hc & Hs).
    cbn in Hc. split; [| exact I].
    exists rest. unfold bind, print, emit. cbn [snd st_trace].
    rewrite <- app_assoc, creates_app, Hc. cbn. rewrite app_nil_r. exact Hs.
Qed.
End Attempts.

(** With room for 18 orders two creations fail: exit status 0, 20 attempts,
    two error lines, and 'cancelled' holds two orders. *)
Lemma seeder_attempts_and_fills_states_witness :
  let st' := snd full_table_run in
  let attempted := map od_status (creates (st_trace st')) in
  (exists rest, order_statuses = attempted ++ rest)
  /\ attempted = order_statuses
  /\ length attempted = 20%nat
  /\ Forall (fun s => count_occ String.string_dec attempted s = 4%nat)
            ["created"; "in_progress"; "overdue"; "completed"; "cancelled"]%string
  /\ Forall (fun s => exists orders,
                dict_get s (st_orders_by_status st') = Some orders
                /\ (length orders <= 4)%nat
                /\ (4 <= length orders + order_errors (st_trace st'))%nat)
            ["created"; "in_progress"; "overdue"; "completed"; "cancelled"]%string.
Proof.
  exact (seeder_attempts_and_fills_states toy_orm sample_now counting_tape
           (mkToyDB [] [] 18) 0 (snd full_table_run)
           ltac:(vm_compute; reflexivity)).
Defined.

Section Safe.
Context {DB : Type} (J : list Customer -> Prop).

Lemma safe_ret {A} (a : A) (Q : A -> Prop) : Q a -> safe (DB := DB) J (ret a) Q.
Proof. intros Hq st _. exists a, st. auto. Qed.

Lemma safe_bind {A B} (m : M (St DB) A) (k : A -> M (St DB) B) Q R :
  safe J m Q -> (forall a, Q a -> safe J (k a) R) -> safe J (bind m k) R.
Proof.
  intros Hm Hk st Hj. destruct (Hm st Hj) as (a & s1 & E1 & Hq & Hc1).
  assert (Hj1 : J (st_customers s1)) by (rewrite Hc1; exact Hj).
  destruct (Hk a Hq s1 Hj1) as (b & s2 & E2 & Hr & Hc2).
  exists b, s2. unfold bind. rewrite E1. split; [exact E2 |].
  split; [exact Hr | congruence].
Qed.

Lemma safe_weaken {A} (m : M (St DB) A) (Q Q' : A -> Prop) :
  safe J m Q -> (forall a, Q a -> Q' a) -> safe J m Q'.
Proof.
  intros Hm Hq st Hj. destruct (Hm st Hj) as (a & s1 & E1 & Ha & Hc1). eauto 6.
Qed.

Lemma safe_with_rng {A} (m : M Rng A) (Q : A -> Prop) :
  (forall g, exists a g', m g = (Ok a, g') /\ Q a) -> safe (DB := DB) J (with_rng m) Q.
Proof.
  intros Hm st _. destruct (Hm (st_rng st)) as (a & g' & E & Hq).
  exists a. eexists. unfold with_rng. rewrite E. split; [reflexivity |]. auto.
Qed.

Lemma safe_with_db {A} (m : M DB A) (Q : A -> Prop) :
  (forall d, exists a d', m d = (Ok a, d') /\ Q a) -> safe J (with_db m) Q.
Proof.
  intros Hm st _. destruct (Hm (st_db st)) as (a & d' & E & Hq).
  exists a. eexists. unfold with_db. rewrite E. split; [reflexivity |]. auto.
Qed.

Lemma safe_randint (a b : Z) :
  a <= b -> safe (DB := DB) J (with_rng (randint a b)) (fun n => a <= n <= b).
Proof.
  intros Hab. apply safe_with_rng. intros g.
  destruct (randint_range a b g Hab) as (n & Hn & E). eauto.
Qed.

Lemma safe_choice {A} (l : list A) :
  l <> [] -> safe (DB := DB) J (with_rng (choice l)) (fun a => In a l).
Proof.
  intros Hl. apply safe_with_rng. intros g.
  destruct (choice_nonempty l g Hl) as (a & Ha & E). eauto.
Qed.

Lemma safe_choice_index (n : nat) :
  n <> 0%nat -> safe (DB := DB) J (with_rng (choice_index n)) (fun i => (i < n)%nat).
Proof.
  intros Hn. apply safe_with_rng. intros g. destruct n as [| n]; [congruence |].
  eexists _, _. split; [reflexivity |].
  pose proof (Z.mod_pos_bound (tape g (cursor g)) (Z.of_nat (S n))). lia.
Qed.

Lemma safe_subscript {A} (l : list A) (i : nat) :
  (i < length l)%nat -> safe (DB := DB) J (subscript l i) (fun a => l !! i = Some a).
Proof.
  intros Hi st _. destruct (lookup_lt_is_Some_2 l i Hi) as [a Ha].
  exists a, st. unfold subscript. rewrite Ha. auto.
Qed.

Lemma safe_print (l : Line) : safe (DB := DB) J (print l) (fun _ => True).
Proof. intros st _. eexists _, _. split; [reflexivity |]. auto. Qed.

Lemma safe_get_customers : safe (DB := DB) J get_customers J.
Proof. intros st Hj. exists (st_customers st), st. auto. Qed.

Lemma safe_get_orders_by_status :
  safe (DB := DB) J get_orders_by_status (fun _ => True).
Proof. intros st _. eexists _, _. split; [reflexivity |]. auto. Qed.

Lemma safe_set_orders_by_status d :
  safe (DB := DB) J (set_orders_by_status d) (fun _ => True).
Proof. intros st _. eexists _, _. split; [reflexivity |]. auto. Qed.

Lemma safe_for_each {A} (xs : list A) (body : A -> M (St DB) unit) :
  (forall x, In x xs -> safe J (body x) (fun _ => True)) ->
  safe J (for_each xs body) (fun _ => True).
Proof.
  induction xs as [| x xs IH]; intros Hb; cbn [for_each].
  - apply safe_ret. exact I.
  - eapply safe_bind; [apply Hb; left; reflexivity |].
    intros _ _. apply IH. intros y Hy. apply Hb. right. exact Hy.
Qed.

Lemma safe_collect {A B} (xs : list A) (body : A -> M (St DB) B) (P : B -> Prop) :
  (forall x, In x xs -> safe J (body x) P) ->
  safe J (collect xs body) (fun bs => length bs = length xs /\ Forall P bs).
Proof.
  induction xs as [| x xs IH]; intros Hb; cbn [collect].
  - apply safe_ret. split; [reflexivity | constructor].
  - eapply safe_bind; [apply Hb; left; reflexivity |].
    intros b Hp. eapply safe_bind; [apply IH; intros y Hy; apply Hb; right; exact Hy |].
    intros bs [Hl Hf]. apply safe_ret. cbn. split; [congruence | constructor; assumption].
Qed.

(** The helper returns for each of the five statuses. *)
Lemma safe_timestamps now status :
  status_of_string status <> None ->
  safe (DB := DB) J (with_rng (create_timestamps_for_status now status))
       (fun _ => True).
Proof.
  intros Hs. apply safe_with_rng. intros g.
  unfold status_of_string in Hs.
  destruct (String.eqb_spec status "created") as [Heq | _].
  { rewrite Heq. destruct (timestamps_created now g) as (n & _ & E). eauto. }
  destruct (String.eqb_spec status "in_progress") as [Heq | _].
  { rewrite Heq. destruct (timestamps_in_progress now g) as (n & _ & E). eauto. }
  destruct (String.eqb_spec status "overdue") as [Heq | _].
  { rewrite Heq, timestamps_overdue. eauto. }
  destruct (String.eqb_spec status "completed") as [Heq | _].
  { rewrite Heq. destruct (timestamps_completed now g) as (x & y & _ & _ & E). eauto. }
  destruct (String.eqb_spec status "cancelled") as [Heq | _].
  { rewrite Heq. destruct (timestamps_cancelled now g) as (x & y & _ & _ & E). eauto. }
  congruence.
Qed.
End Safe.

(** ** A run with a well-behaved ORM outside the [try] *)

Section Contained.
Context {DB : Type} (orm : ORM DB) (Hwb : well_behaved_outside_try orm).

Lemma safe_get_or_create_branch J :
  safe J (get_or_create_branch orm) (fun _ => True).
Proof.
  unfold get_or_create_branch.
  eapply safe_bind; [apply (safe_with_db J _ (fun _ => True)) | intros p _; apply safe_ret; exact I].
  intros d. destruct (wb_branch orm Hwb "MAIN" "Main Branch" true d) as (p & d' & E). eauto.
Qed.

Lemma safe_get_or_create_user J :
  safe J (get_or_create_user orm) (fun _ => True).
Proof.
  unfold get_or_create_user.
  eapply safe_bind; [apply (safe_with_db J _ (fun _ => True)) | intros p _; apply safe_ret; exact I].
  intros d.
  destruct (wb_user orm Hwb "staff_user" "staff@example.com" "Staff" "User" true d)
    as (p & d' & E). eauto.
Qed.

Lemma safe_create_customer J now branch entry :
  safe J (create_customer orm now branch entry)
       (fun c => is_Some (cust_total_visits c)).
Proof.
  unfold create_customer. destruct entry as [i [[[name phone] email] ctype]].
  eapply safe_bind; [apply safe_randint; lia | intros n1 _].
  eapply safe_bind; [apply safe_randint; lia | intros n2 _].
  eapply safe_bind.
  - apply (safe_with_db J _ (fun p => is_Some (cust_total_visits (fst p)))).
    intros d.
    destruct (wb_customer orm Hwb phone branch name email ctype (now - days n1)
                ("Plot " +:+ pretty n2 +:+ ", Kampala") d) as (c & cr & d' & E & Hv).
    exists (c, cr), d'. auto.
  - intros [c cr] Hv. cbn in Hv.
    eapply safe_bind; [apply safe_print | intros _ _]. apply safe_ret. exact Hv.
Qed.

Lemma safe_create_vehicles J customers :
  safe J (create_vehicles orm customers) (fun _ => True).
Proof.
  unfold create_vehicles.
  eapply safe_bind; [| intros vss _; apply safe_ret; exact I].
  apply (safe_collect J customers _ (fun _ => True)). intros customer _.
  eapply safe_bind; [apply safe_randint; lia | intros n Hn].
  eapply safe_weaken; [| intros; exact I].
  apply (safe_collect J _ _ (fun _ => True)). intros k _.
  unfold create_vehicle.
  eapply safe_bind; [apply safe_randint; lia | intros n1 _].
  eapply safe_bind; [apply safe_choice; discriminate | intros c _].
  eapply safe_bind; [apply safe_choice; discriminate | intros mk _].
  eapply safe_bind; [apply safe_choice; discriminate | intros md _].
  eapply safe_bind.
  - apply (safe_with_db J _ (fun _ => True)). intros d.
    destruct (wb_vehicle orm Hwb ("U" +:+ pretty n1 +:+ c) customer mk md "sedan" d)
      as (p & d' & E). eauto.
  - intros [v cr] _.
    eapply safe_bind; [| intros _ _; apply safe_ret; exact I].
    destruct cr; [apply safe_print | apply safe_ret; exact I].
Qed.

Lemma safe_create_brand J entry :
  safe J (create_brand orm entry) (fun _ => True).
Proof.
  unfold create_brand. destruct entry as [name description].
  eapply safe_bind.
  - apply (safe_with_db J _ (fun _ => True)). intros d.
    destruct (wb_brand orm Hwb name description d) as (p & d' & E). eauto.
  - intros [b cr] _.
    eapply safe_bind; [| intros _ _; apply safe_ret; exact I].
    destruct cr; [apply safe_print | apply safe_ret; exact I].
Qed.

Lemma safe_create_item J brand (entry : Z * string) :
  In entry (enumerate 0 (take 2 tire_types)) ->
  safe J (create_item orm brand entry) (fun _ => True).
Proof.
  intros Hin. unfold create_item. destruct entry as [i tire_type].
  assert (Hi : (Z.to_nat i < length sizes)%nat).
  { cbn in Hin. destruct Hin as [H | [H | []]]; inversion H; subst; cbn; lia. }
  eapply safe_bind; [apply safe_subscript; exact Hi | intros size _].
  eapply safe_bind; [apply safe_randint; lia | intros q _].
  eapply safe_bind; [apply safe_randint; lia | intros pr _].
  eapply safe_bind.
  - apply (safe_with_db J _ (fun _ => True)). intros d.
    destruct (wb_item orm Hwb (tire_type +:+ " " +:+ size) brand q pr 5 d)
      as (p & d' & E). eauto.
  - intros [it cr] _.
    eapply safe_bind; [| intros _ _; apply safe_ret; exact I].
    destruct cr; [apply safe_print | apply safe_ret; exact I].
Qed.

Lemma safe_create_inventory J brands :
  brands <> [] ->
  safe J (create_inventory orm brands) (fun items => items <> []).
Proof.
  intros Hb. unfold create_inventory.
  eapply safe_bind.
  - apply (safe_collect J brands _ (fun its => length its = 2%nat)). intros brand _.
    eapply safe_weaken.
    + apply (safe_collect J _ _ (fun _ => True)). intros entry Hin.
      apply safe_create_item. exact Hin.
    + intros its [Hl _]. exact Hl.
  - intros iss [Hl Hf]. apply safe_ret.
    destruct brands as [| b brands]; [congruence |].
    destruct iss as [| its iss]; [discriminate |].
    inversion Hf as [| ? ? H2 _]; subst.
    destruct its; [discriminate |]. discriminate.
Qed.

(** The vehicle of an order: [exists()] and [all()] are read together. *)
Lemma safe_vehicle {B} J customer (k : option Vehicle -> M (St DB) B) (R : B -> Prop) :
  (forall vehicle, safe J (k vehicle) R) ->
  safe J (has_vehicles <- with_db (vehicles_exists orm customer) ;;
          vehicle <- (if has_vehicles : bool
                      then vs <- with_db (vehicles_all orm customer) ;;
                           v <- with_rng (choice vs) ;; ret (Some v)
                      else ret None) ;;
          k vehicle) R.
Proof.
  intros Hk st Hj.
  destruct (wb_vehicles orm Hwb customer (st_db st)) as (b & d1 & Eex & Hall).
  unfold bind at 1. unfold with_db at 1. rewrite Eex.
  destruct b.
  - destruct (Hall eq_refl) as (vs & d2 & Eall & Hvs).
    unfold bind at 1. unfold bind at 1. unfold with_db at 1. cbn [st_db].
    rewrite Eall.
    unfold bind at 1. unfold with_rng at 1. cbn [st_rng].
    destruct (choice_nonempty vs (st_rng st) Hvs) as (v & _ & Ech). rewrite Ech.
    unfold ret at 1.
    match goal with
    | |- exists a st', k _ ?s = _ /\ _ =>
        destruct (Hk (Some v) s Hj) as (a & s4 & E & Hr & Hc)
    end.
    exists a, s4. split; [exact E |]. split; [exact Hr | exact Hc].
  - unfold bind at 1. unfold ret at 1.
    match goal with
    | |- exists a st', k _ ?s = _ /\ _ =>
        destruct (Hk None s Hj) as (a & s4 & E & Hr & Hc)
    end.
    exists a, s4. split; [exact E |]. split; [exact Hr | exact Hc].
Qed.

Variables (now : datetime) (branch : Branch) (staff_user : User)
          (items : list InventoryItem).

Lemma safe_build_order_data status :
  items <> [] ->
  status_of_string status <> None ->
  safe (fun cs => cs <> []) (build_order_data orm now branch staff_user items status)
       (fun _ => True).
Proof.
  intros Hitems Hstatus. unfold build_order_data.
  eapply safe_bind; [apply safe_get_customers | intros customers Hcs].
  eapply safe_bind;
    [apply safe_choice_index; destruct customers; [congruence | discriminate] |
     intros ci Hci].
  eapply safe_bind; [apply safe_subscript; exact Hci | intros customer _].
  apply safe_vehicle. intros vehicle.
  eapply safe_bind; [apply safe_choice; discriminate | intros order_type _].
  eapply safe_bind; [apply safe_choice; discriminate | intros priority _].
  eapply safe_bind; [apply safe_timestamps; exact Hstatus | intros ts _].
  destruct ts as [[[created_at started_at] completed_at] cancelled_at].
  eapply safe_bind; [apply safe_randint; lia | intros ed _].
  eapply safe_bind; [apply safe_choice; discriminate | intros assign _].
  eapply safe_bind.
  { instantiate (1 := fun _ => True). destruct cancelled_at.
    - eapply safe_bind; [apply safe_choice; discriminate | intros r _].
      apply safe_ret. exact I.
    - apply safe_ret. exact I. }
  intros reason _.
  destruct (String.eqb order_type "service").
  - eapply safe_bind; [apply safe_choice; discriminate | intros dsc _].
    apply safe_ret. exact I.
  - destruct (String.eqb order_type "sales").
    + eapply safe_bind; [apply safe_choice; exact Hitems | intros item _].
      eapply safe_bind; [apply safe_randint; lia | intros q _].
      apply safe_ret. exact I.
    + apply safe_ret. exact I.
Qed.

Lemma seed_order_returns order_num status st :
  items <> [] ->
  status_of_string status <> None ->
  has_visit_counts (st_customers st) ->
  exists st',
    seed_order orm now branch staff_user items order_num status st = (Ok tt, st')
    /\ has_visit_counts (st_customers st').
Proof.
  intros Hitems Hstatus [Hne Hv].
  destruct (safe_build_order_data status Hitems Hstatus st Hne)
    as ([ci od] & s0 & E0 & _ & Hc0).
  pose proof (build_order_data_inv orm _ _ _ _ _ _ _ _ _ E0) as (Hc & _).
  rewrite <- Hc0 in Hc.
  destruct (try_except (create_and_record orm now order_num ci od)
              (fun e => print (LOrderError e)) s0) as [r st'] eqn:Et.
  pose proof (try_create_and_record_effect orm _ _ _ _ _ _ _ _ Hc Et)
    as (-> & [(Hcs & _) | (order & _ & Hcs & _)]).
  - exists st'. unfold seed_order, bind. rewrite E0. split; [exact Et |].
    rewrite Hcs, Hc0. split; assumption.
  - exists st'. unfold seed_order, bind. rewrite E0. split; [exact Et |].
    rewrite Hcs, Hc0. split.
    + intros Hnil. apply (f_equal length) in Hnil. rewrite length_insert in Hnil.
      destruct (st_customers st); [congruence | discriminate].
    + apply Forall_insert; [exact Hv |]. cbn. eauto.
Qed.

Lemma seed_orders_return statuses order_num st :
  items <> [] ->
  Forall (fun status => status_of_string status <> None) statuses ->
  has_visit_counts (st_customers st) ->
  exists st',
    seed_orders orm now branch staff_user items order_num statuses st = (Ok tt, st')
    /\ has_visit_counts (st_customers st').
Proof.
  intros Hitems Hs. revert order_num st.
  induction Hs as [| status rest Hstatus _ IH]; intros order_num st Hj.
  - exists st. split; [reflexivity | exact Hj].
  - destruct (seed_order_returns (order_num + 1) status st Hitems Hstatus Hj)
      as (s1 & E1 & Hj1).
    destruct (IH (order_num + 1) s1 Hj1) as (s2 & E2 & Hj2).
    exists s2. cbn [seed_orders]. unfold bind. rewrite E1. auto.
Qed.

Lemma safe_print_summary vehicles :
  safe has_visit_counts (print_summary orm now vehicles) (fun _ => True).
Proof.
  unfold print_summary.
  do 4 (eapply safe_bind; [apply safe_print | intros _ _]).
  eapply safe_bind; [apply safe_get_customers | intros customers [_ Hv]].
  do 2 (eapply safe_bind; [apply safe_print | intros _ _]).
  eapply safe_bind; [apply safe_get_orders_by_status | intros by_status _].
  do 8 (eapply safe_bind; [apply safe_print | intros _ _]).
  eapply safe_bind.
  { apply safe_for_each. intros [status orders] _. unfold print_status_group.
    destruct orders; [apply safe_ret; exact I | apply safe_print]. }
  intros _ _.
  do 3 (eapply safe_bind; [apply safe_print | intros _ _]).
  do 3 (eapply safe_bind;
        [apply (safe_with_db _ _ (fun _ => True)); intros d;
         match goal with
         | |- exists a d', Order_filter_type_count orm ?ty d = _ /\ _ =>
             destruct (wb_type_count orm Hwb ty d) as (n & d' & E); eauto
         end
        | intros ? _]).
  do 6 (eapply safe_bind; [apply safe_print | intros _ _]).
  eapply safe_bind.
  { apply safe_for_each. intros c Hin. unfold print_visits.
    eapply safe_bind.
    - apply (safe_with_db _ _ (fun _ => True)). intros d.
      destruct (wb_orders_count orm Hwb c d) as (n & d' & E). eauto.
    - intros n _. rewrite Forall_forall in Hv.
      destruct (Hv c ltac:(apply list_elem_of_In; exact Hin)) as [v ->].
      apply safe_print. }
  intros _ _.
  do 5 (eapply safe_bind; [apply safe_print | intros _ _]).
  apply safe_print.
Qed.
End Contained.

Section ContainedRun.
Context {DB : Type} (orm : ORM DB).

Lemma returns_safe {A} J (m : M (St DB) A) Q : safe J m Q -> returns J m Q J.
Proof.
  intros Hm st Hj. destruct (Hm st Hj) as (a & st' & E & Hq & Hc).
  exists a, st'. rewrite Hc. auto.
Qed.

Lemma returns_bind {A B} J J1 J2 (m : M (St DB) A) (k : A -> M (St DB) B) Q R :
  returns J m Q J1 -> (forall a, Q a -> returns J1 (k a) R J2) ->
  returns J (bind m k) R J2.
Proof.
  intros Hm Hk st Hj. destruct (Hm st Hj) as (a & s1 & E1 & Hq & Hj1).
  destruct (Hk a Hq s1 Hj1) as (b & s2 & E2 & Hr & Hj2).
  exists b, s2. unfold bind. rewrite E1. auto.
Qed.

Lemma returns_set_customers J (J' : list Customer -> Prop) cs :
  J' cs -> returns (DB := DB) J (set_customers cs) (fun _ => True) J'.
Proof. intros Hcs st _. eexists _, _. split; [reflexivity |]. split; [exact I | exact Hcs]. Qed.

(** With a well-behaved ORM outside the [try], [create_sample_data]
    returns normally from every state, whatever [Order.objects.create] and
    [customer.save] do. *)
Lemma create_sample_data_returns now :
  well_behaved_outside_try orm ->
  returns (fun _ => True) (create_sample_data orm now) (fun _ => True)
          has_visit_counts.
Proof.
  intros Hwb. unfold create_sample_data.
  pose (J0 := fun _ : list Customer => True).
  do 3 (eapply returns_bind; [apply returns_safe; apply safe_print | intros _ _]).
  eapply returns_bind;
    [apply returns_safe; apply safe_get_or_create_branch; exact Hwb | intros branch _].
  eapply returns_bind;
    [apply returns_safe; apply safe_get_or_create_user; exact Hwb | intros staff_user _].
  eapply returns_bind; [apply returns_safe; apply safe_print | intros _ _].
  eapply returns_bind.
  { apply returns_safe.
    apply (safe_collect J0 _ _ (fun c => is_Some (cust_total_visits c))).
    intros entry _. apply safe_create_customer. exact Hwb. }
  intros customers [Hl Hv].
  assert (Hj : has_visit_counts customers).
  { split; [| exact Hv]. destruct customers; [discriminate | discriminate]. }
  eapply returns_bind; [apply (returns_set_customers _ has_visit_counts); exact Hj |
                        intros _ _].
  eapply returns_bind; [apply returns_safe; apply safe_print | intros _ _].
  eapply returns_bind;
    [apply returns_safe; apply safe_create_vehicles; exact Hwb | intros vehicles _].
  eapply returns_bind; [apply returns_safe; apply safe_print | intros _ _].
  eapply returns_bind.
  { apply returns_safe. apply (safe_collect _ _ _ (fun _ => True)). intros entry _.
    apply safe_create_brand. exact Hwb. }
  intros brands [Hlb _].
  eapply returns_bind;
    [apply returns_safe; apply safe_create_inventory;
     [exact Hwb | destruct brands; [discriminate | discriminate]] |
     intros inventory Hi].
  do 2 (eapply returns_bind; [apply returns_safe; apply safe_print | intros _ _]).
  eapply returns_bind;
    [apply returns_safe; apply safe_set_orders_by_status | intros _ _].
  eapply returns_bind.
  { instantiate (1 := has_visit_counts). instantiate (1 := fun _ => True).
    intros st Hst.
    destruct (seed_orders_return orm Hwb now branch staff_user inventory
                order_statuses 0 st Hi ltac:(repeat constructor; discriminate) Hst)
      as (s17 & E17 & Hj17).
    exists tt, s17. auto. }
  intros _ _. apply returns_safe. apply safe_print_summary. exact Hwb.
Qed.
End ContainedRun.

Lemma toy_orm_well_behaved : well_behaved_outside_try toy_orm.
Proof.
  constructor; intros; try (eexists _, _; reflexivity).
  - eexists _, _, _. split; [reflexivity |]. cbn. eauto.
  - exists false. eexists. split; [reflexivity | discriminate].
Qed.

Section TwoHandlers.
Context {DB : Type} (orm : ORM DB).

End TwoHandlers.


Section Summary.
Context {DB : Type} (orm : ORM DB).

Lemma requires_bind_later {A B} P (m : M (St DB) A) (k : A -> M (St DB) B) :
  (forall a, requires P (k a)) -> requires P (bind m k).
Proof.
  intros Hk st b st' H. apply bind_Ok_inv in H as (a & s1 & _ & E). eapply Hk. exact E.
Qed.

Lemma requires_bind_now {A B} P (m : M (St DB) A) (k : A -> M (St DB) B) :
  requires P m -> requires P (bind m k).
Proof.
  intros Hm st b st' H. apply bind_Ok_inv in H as (a & s1 & E & _). eapply Hm. exact E.
Qed.

Lemma returns_only_if_bind_later {A B} J (m : M (St DB) A) (k : A -> M (St DB) B) :
  keeps st_customers m -> (forall a, returns_only_if J (k a)) ->
  returns_only_if J (bind m k).
Proof.
  intros Hm Hk st b st' H. apply bind_Ok_inv in H as (a & s1 & E1 & E2).
  rewrite <- (Hm _ _ _ E1). eapply Hk. exact E2.
Qed.

Lemma returns_only_if_get_customers {B} J (k : list Customer -> M (St DB) B) :
  (forall cs, requires (J cs) (k cs)) -> returns_only_if J (bind get_customers k).
Proof.
  intros Hk st b st' H. apply bind_Ok_inv in H as (cs & s1 & E1 & E2).
  inversion E1; subst. eapply Hk. exact E2.
Qed.

Lemma keeps_objects_and_saves_print_summary now vehicles :
  keeps objects_and_saves (print_summary orm now vehicles).
Proof.
  unfold print_summary, print_status_group, print_visits, objects_and_saves.
  repeat keeps_step.
Qed.

Lemma for_each_print_visits customers :
  requires (Forall (fun c => is_Some (cust_total_visits c)) customers)
           (for_each customers (print_visits orm)).
Proof.
  induction customers as [| c customers IH]; intros st a st' H; [constructor |].
  cbn [for_each] in H. apply bind_Ok_inv in H as ([] & s1 & E & H).
  constructor; [| eapply IH; exact H].
  unfold print_visits in E. apply bind_Ok_inv in E as (n & s2 & _ & E).
  destruct (cust_total_visits c); [eauto | discriminate].
Qed.

Lemma print_summary_returns_only_if now vehicles :
  returns_only_if (Forall (fun c => is_Some (cust_total_visits c)))
                  (print_summary orm now vehicles).
Proof.
  unfold print_summary.
  do 4 (apply returns_only_if_bind_later;
        [apply keeps_print; reflexivity | intros _]).
  apply returns_only_if_get_customers. intros customers.
  repeat lazymatch goal with
         | |- requires _ (bind (for_each _ (print_visits _)) _) => fail
         | |- requires _ (bind _ _) => apply requires_bind_later; intro
         end.
  apply requires_bind_now. apply for_each_print_visits.
Qed.

(** X17: the summary ends normally only if every customer object has a
    total_visits that is not null (formatting a null count raises
    TypeError); when it does, it has changed no customer, nothing in
    [orders_by_status] and issued no save. *)
Theorem summary_needs_visit_counts now vehicles st st' :
  print_summary orm now vehicles st = (Ok tt, st') ->
  Forall (fun c => is_Some (cust_total_visits c)) (st_customers st)
  /\ st_customers st' = st_customers st
  /\ st_orders_by_status st' = st_orders_by_status st
  /\ saves (st_trace st') = saves (st_trace st).
Proof.
  intros H. pose proof (keeps_objects_and_saves_print_summary _ _ _ _ _ H) as K.
  unfold objects_and_saves in K. injection K as K1 K2 K3.
  split; [| auto].
  exact (print_summary_returns_only_if _ _ _ _ _ H).
Qed.
End Summary.

Lemma seeded_timestamps_in_the_past_witness :
  exists ci od st',
    build_order_data toy_orm sample_now sample_branch sample_user sample_items
      "completed" sample_state = (Ok (ci, od), st')
    /\ od_created_at od < sample_now
    /\ match od_started_at od with Some t => t < sample_now | None => True end
    /\ match od_completed_at od with Some t => t < sample_now | None => True end
    /\ match od_cancelled_at od with Some t => t < sample_now | None => True end.
Proof.
  eexists _, _, _. split; [vm_compute; reflexivity |].
  eapply (seeded_timestamps_in_the_past toy_orm sample_now sample_branch sample_user
            sample_items "completed" sample_state).
  vm_compute. reflexivity.
Defined.

Lemma seeded_order_age_by_status_witness :
  exists ci od st',
    build_order_data toy_orm sample_now sample_branch sample_user sample_items
      "overdue" sample_state = (Ok (ci, od), st')
    /\ status_of_string (od_status od) = Some overdue
    /\ time_of_day (od_created_at od) = hours 8 + minutes 15
    /\ hours 15 + minutes 45 <= sample_now - od_created_at od < hours 39 + minutes 45.
Proof.
  eexists _, _, _. split; [vm_compute; reflexivity |].
  split; [reflexivity |].
  exact (seeded_order_age_by_status toy_orm sample_now sample_branch sample_user
           sample_items "overdue" sample_state _ _ _ ltac:(vm_compute; reflexivity)).
Defined.

Lemma closing_timestamps_match_status_witness :
  exists ci od st',
    build_order_data toy_orm sample_now sample_branch sample_user sample_items
      "completed" sample_state = (Ok (ci, od), st')
    /\ (is_Some (od_completed_at od) <-> od_status od = "completed"%string)
    /\ (is_Some (od_cancelled_at od) <-> od_status od = "cancelled"%string)
    /\ od_completion_date od = od_completed_at od.
Proof.
  eexists _, _, _. split; [vm_compute; reflexivity |].
  eapply (closing_timestamps_match_status toy_orm sample_now sample_branch sample_user
            sample_items "completed" sample_state).
  vm_compute. reflexivity.
Defined.

Lemma cancellation_reason_iff_cancelled_witness :
  exists ci od st',
    build_order_data toy_orm sample_now sample_branch sample_user sample_items
      "cancelled" sample_state = (Ok (ci, od), st')
    /\ is_Some (od_cancelled_at od)
    /\ exists r, od_cancellation_reason od = Some r
                 /\ In r ["Customer request"; "Parts unavailable";
                          "Weather conditions"; "Customer no-show"]%string.
Proof.
  eexists _, _, _. split; [vm_compute; reflexivity |].
  split; [eexists; reflexivity |].
  exact (cancellation_reason_iff_cancelled toy_orm sample_now sample_branch sample_user
           sample_items "cancelled" sample_state _ _ _ ltac:(vm_compute; reflexivity)).
Defined.

Lemma order_type_specific_fields_witness :
  exists ci od st',
    build_order_data toy_orm sample_now sample_branch sample_user sample_items
      "in_progress" sample_state = (Ok (ci, od), st')
    /\ ((od_type od = "service"%string
         /\ (exists d, od_description od = Some d /\ In d service_descriptions)
         /\ od_item_name od = None /\ od_brand od = None
         /\ od_quantity od = None /\ od_tire_type od = None)
        \/ (od_type od = "sales"%string
            /\ od_description od = None
            /\ (exists item, In item sample_items
                  /\ od_item_name od = Some (item_name item)
                  /\ od_brand od = Some (brand_name (item_brand item)))
            /\ (exists q, od_quantity od = Some q /\ 1 <= q <= 4)
            /\ od_tire_type od = Some "New"%string)).
Proof.
  eexists _, _, _. split; [vm_compute; reflexivity |].
  eapply (order_type_specific_fields toy_orm sample_now sample_branch sample_user
            sample_items "in_progress" sample_state).
  vm_compute. reflexivity.
Defined.

Lemma order_common_fields_witness :
  exists ci od st',
    build_order_data toy_orm sample_now sample_branch sample_user sample_items
      "created" sample_state = (Ok (ci, od), st')
    /\ st_customers sample_state !! ci = Some (od_customer od)
    /\ od_branch od = sample_branch
    /\ od_status od = "created"%string
    /\ In (od_priority od) ["low"; "medium"; "high"; "urgent"]%string
    /\ 60 <= od_estimated_duration od <= 480
    /\ (od_assigned_to od = Some sample_user \/ od_assigned_to od = None).
Proof.
  eexists _, _, _. split; [vm_compute; reflexivity |].
  eapply (order_common_fields toy_orm sample_now sample_branch sample_user
            sample_items "created" sample_state).
  vm_compute. reflexivity.
Defined.

Lemma build_order_data_is_silent_witness :
  exists r st',
    build_order_data toy_orm sample_now sample_branch sample_user sample_items
      "pending" sample_state = (r, st')
    /\ r = Raise (UnboundLocalError "created")
    /\ st_customers st' = st_customers sample_state
    /\ st_orders_by_status st' = st_orders_by_status sample_state
    /\ st_trace st' = st_trace sample_state.
Proof.
  eexists _, _. split; [vm_compute; reflexivity |].
  split; [reflexivity |].
  eapply (build_order_data_is_silent toy_orm sample_now sample_branch sample_user
            sample_items "pending" sample_state).
  vm_compute. reflexivity.
Defined.

Lemma failed_create_changes_nothing_witness :
  try_except (create_and_record toy_orm sample_now 5 1 sample_order_data)
             (fun e => print (LOrderError e)) refusing_state
  = (Ok tt, mkSt (st_rng refusing_state) (mkToyDB [] [] 0)
                 (st_customers refusing_state) (st_orders_by_status refusing_state)
                 (st_trace refusing_state
                  ++ [CalledOrderCreate sample_order_data;
                      Printed (LOrderError (DatabaseError "order table is full"))])).
Proof.
  apply (failed_create_changes_nothing toy_orm sample_now 5 1 sample_order_data
           refusing_state (DatabaseError "order table is full") (mkToyDB [] [] 0)).
  reflexivity.
Defined.

Lemma failed_save_keeps_visit_in_memory_witness :
  exists st',
    try_except (create_and_record readonly_orm sample_now 5 1 sample_order_data)
               (fun e => print (LOrderError e)) sample_state = (Ok tt, st')
    /\ st_customers st' !! 1%nat
       = Some (sample_customer "0701234568" "Sarah Johnson" (Some 4)
                 (Some (sample_now - minutes 30)))
    /\ dict_get "in_progress" (st_orders_by_status st')
       = Some [mkOrder "ORD0" (sample_now - minutes 30)]
    /\ order_errors (st_trace st') = 1%nat
    /\ toy_saved (st_db st') = [].
Proof.
  eexists. split.
  - eapply (failed_save_keeps_visit_in_memory readonly_orm sample_now 5 1
              sample_order_data sample_state); reflexivity.
  - vm_compute. repeat split; reflexivity.
Defined.



Lemma summary_needs_visit_counts_witness :
  exists st',
    print_summary toy_orm sample_now [] counted_state = (Ok tt, st')
    /\ Forall (fun c => is_Some (cust_total_visits c)) (st_customers counted_state)
    /\ st_customers st' = st_customers counted_state
    /\ st_orders_by_status st' = st_orders_by_status counted_state
    /\ saves (st_trace st') = saves (st_trace counted_state).
Proof.
  eexists. split; [vm_compute; reflexivity |].
  eapply (summary_needs_visit_counts toy_orm sample_now [] counted_state).
  vm_compute. reflexivity.
Defined.
